(** * Message-board service: the HTTP handlers of [api/api.go] and the
      PostgreSQL store of [postgres/postgres.go], as a shallow embedding.

    The handlers are effectful Go methods: they call the two storage
    collaborators (interfaces [DB] and [Cache]), write to the logger, read
    the clock and write one response.  They are embedded as computations in
    a small state monad over a [World] that holds the collaborators' states,
    the clock reading, the calls made through the two interfaces, the log
    records and the response writer.  Go's [int] is modelled as [Z] (a
    slice length never overflows it), Go's [(value, error)] results as
    pairs whose second component is [None] for a nil error, and
    [time.Time] by the instant and the location that [Time.Format] reads.

    Routing ([setupRoutes], [ServeHTTP]) and [postgres.Connect] are not
    modelled: the statements below are about the three handlers and the
    two store methods, each entered with a fresh response writer. *)

From Stdlib Require Import ZArith List String Ascii Bool Lia.
Import ListNotations.

#[local] Open Scope string_scope.
#[local] Open Scope Z_scope.

(* ===================================================================== *)
(** ** Package [time]: what [Time.Format(time.RFC1123)] computes *)
(* ===================================================================== *)

(** Go's standard library, as far as the handlers use it: [time.Now],
    [Time.Format] with the layout [time.RFC1123], and [time.Date],
    [Time.UTC], [Time.In] and [time.FixedZone] to write timestamps
    down. *)
Module time.

(** A [*Location] is modelled by what [Location.lookup] answers at an
    instant (Unix seconds): the zone abbreviation and the offset east of
    UTC in force.  [UTC] is Go's [&utcLoc] (also what a nil location
    stands for). *)
Inductive Location :=
| UTC
| Zone (lookup : Z -> string * Z).

Definition FixedZone (name : string) (offset : Z) : Location :=
  Zone (fun _ => (name, offset)).

(** A [Time]: seconds since the Unix epoch, nanoseconds within the
    second, and the location used for presentation.  Go keeps the seconds
    in 64 bits and its calendar arithmetic wraps around for instants
    hundreds of billions of years away; the integers here do not, so the
    model stands for Go on the instants whose wall clock shows a year
    Go can print without wrapping, and the statements about the text of a
    timestamp are made for the years 0 to 9999. *)
Record Time := { unixSec : Z; nsec : Z; loc : Location }.

(** [t.UTC()]: the same instant, presented in UTC. *)
Definition Time_UTC (t : Time) : Time :=
  {| unixSec := unixSec t; nsec := nsec t; loc := UTC |}.

(** [t.In(l)]. *)
Definition Time_In (t : Time) (l : Location) : Time :=
  {| unixSec := unixSec t; nsec := nsec t; loc := l |}.

(** [t.locabs()]: zone name, offset, and the seconds of the wall clock
    shown in the location of [t]. *)
Definition locabs (t : Time) : string * Z * Z :=
  match loc t with
  | UTC => ("UTC", 0, unixSec t)
  | Zone lookup =>
      let '(name, offset) := lookup (unixSec t) in
      (name, offset, unixSec t + offset)
  end.

Definition secondsPerDay : Z := 86400.

(** The Gregorian calendar repeats every 400 years, 146097 days.  Within
    one such era, which starts on a 1 March: the year of the era, the
    month 1..12 and the day 1..31 of the day [doe] of the era. *)
Definition civilOfDoe (doe : Z) : Z * Z * Z :=
  let yoe := (doe - doe / 1460 + doe / 36524 - doe / 146096) / 365 in
  let doy := doe - (365 * yoe + yoe / 4 - yoe / 100) in
  let mp := (5 * doy + 2) / 153 in
  let d := doy - (153 * mp + 2) / 5 + 1 in
  let m := if mp <? 10 then mp + 3 else mp - 9 in
  (yoe, m, d).

(** Proleptic Gregorian calendar date of a day count since 1970-01-01:
    (year, month 1..12, day 1..31). *)
Definition civil (days : Z) : Z * Z * Z :=
  let z := days + 719468 in
  let era := z / 146097 in
  let doe := z mod 146097 in
  let '(yoe, m, d) := civilOfDoe doe in
  let y := yoe + era * 400 in
  (if m <=? 2 then y + 1 else y, m, d).

(** The day of the era of a year of the era, a month and a day. *)
Definition doeOfCivil (yoe m d : Z) : Z :=
  let mp := if m <=? 2 then m + 9 else m - 3 in
  let doy := (153 * mp + 2) / 5 + d - 1 in
  yoe * 365 + yoe / 4 - yoe / 100 + doy.

(** The day count since 1970-01-01 of a calendar date: the other
    direction, as [time.Date] needs it for fields in their normal
    ranges. *)
Definition daysFromCivil (y m d : Z) : Z :=
  let y' := if m <=? 2 then y - 1 else y in
  let era := y' / 400 in
  let yoe := y' mod 400 in
  era * 146097 + doeOfCivil yoe m d - 719468.

Definition Date (year month day hour min sec : Z) (l : Location) : Time :=
  let wall := daysFromCivil year month day * secondsPerDay
              + hour * 3600 + min * 60 + sec in
  let offset := match l with
                | UTC => 0
                | Zone lookup => snd (lookup wall)
                end in
  {| unixSec := wall - offset; nsec := 0; loc := l |}.

(** Weekday of a day count, Sunday = 0 (1970-01-01 was a Thursday). *)
Definition weekday (days : Z) : Z := (days + 4) mod 7.

Definition longDayNames : list string :=
  ["Sunday"; "Monday"; "Tuesday"; "Wednesday"; "Thursday"; "Friday";
   "Saturday"].

Definition longMonthNames : list string :=
  ["January"; "February"; "March"; "April"; "May"; "June"; "July";
   "August"; "September"; "October"; "November"; "December"].

(** [s[:3]] of a name. *)
Definition abbrev (s : string) : string := substring 0 3 s.

Definition digit (d : Z) : ascii := ascii_of_nat (48 + Z.to_nat d).

(** Decimal digits of [u >= 0], most significant first; [fuel] bounds
    the number of digits. *)
Fixpoint digits (fuel : nat) (u : Z) (acc : string) : string :=
  match fuel with
  | O => acc
  | S fuel' =>
      let acc' := String (digit (u mod 10)) acc in
      if u / 10 =? 0 then acc' else digits fuel' (u / 10) acc'
  end.

Fixpoint zeros (n : nat) : string :=
  match n with
  | O => ""
  | S n' => String "0" (zeros n')
  end.

(** [appendInt(b, x, width)]: the decimal form of [x], zero-padded to
    [width] digits, after a minus sign when [x] is negative. *)
Definition appendInt (x : Z) (width : nat) : string :=
  let u := Z.abs x in
  let ds := digits 20 u "" in
  (if x <? 0 then "-" else "")
    ++ zeros (width - String.length ds) ++ ds.

(** The chunks of a layout, as [nextStdChunk] cuts it. *)
Inductive chunk :=
| lit (s : string)
| stdWeekDay      (* Mon *)
| stdZeroDay      (* 02 *)
| stdMonth        (* Jan *)
| stdLongYear     (* 2006 *)
| stdHour         (* 15 *)
| stdZeroMinute   (* 04 *)
| stdZeroSecond   (* 05 *)
| stdTZ.          (* MST *)

(** [time.RFC1123 = "Mon, 02 Jan 2006 15:04:05 MST"]. *)
Definition RFC1123 : list chunk :=
  [stdWeekDay; lit ", "; stdZeroDay; lit " "; stdMonth; lit " ";
   stdLongYear; lit " "; stdHour; lit ":"; stdZeroMinute; lit ":";
   stdZeroSecond; lit " "; stdTZ].

(** The text for [stdTZ]: the zone abbreviation, or the offset in the form
    [-0700] for a zone without one. *)
Definition zoneText (name : string) (offset : Z) : string :=
  if negb (name =? "")%string then name
  else
    let zone := Z.quot offset 60 in
    (if zone <? 0 then "-" else "+")
      ++ appendInt (Z.abs zone / 60) 2
      ++ appendInt (Z.abs zone mod 60) 2.

(** One chunk of [Time.appendFormat], for wall-clock seconds [abs] in a
    zone called [name] at [offset]. *)
Definition formatChunk (name : string) (offset abs : Z) (c : chunk)
  : string :=
  let days := abs / secondsPerDay in
  let secs := abs mod secondsPerDay in
  let '(year, month, day) := civil days in
  match c with
  | lit s => s
  | stdWeekDay => abbrev (nth (Z.to_nat (weekday days)) longDayNames "")
  | stdZeroDay => appendInt day 2
  | stdMonth => abbrev (nth (Z.to_nat (month - 1)) longMonthNames "")
  | stdLongYear => appendInt year 4
  | stdHour => appendInt (secs / 3600) 2
  | stdZeroMinute => appendInt (secs mod 3600 / 60) 2
  | stdZeroSecond => appendInt (secs mod 60) 2
  | stdTZ => zoneText name offset
  end.

(** [t.Format(layout)]. *)
Definition Time_Format (t : Time) (layout : list chunk) : string :=
  let '(name, offset, abs) := locabs t in
  String.concat "" (map (formatChunk name offset abs) layout).

End time.

(* ===================================================================== *)
(** ** Package [api]: [api/api.go] *)
(* ===================================================================== *)

Module api.

(** Go's [error], by the text of [err.Error()]; [None] is the nil
    error. *)
Definition error := string.

(** Modelled from the spec: the declaration of [api.Message] is not among
    the sources; the fields are the ones the handlers and the store read
    and write ([ID], [Text], [UserID], [CreatedAt]). *)
Record Message := {
  ID : string;
  Text : string;
  UserID : string;
  CreatedAt : time.Time
}.

(** The zero value [Message{}]; [time.Time{}] is January 1, year 1,
    00:00:00 UTC. *)
Definition zeroTime : time.Time :=
  {| time.unixSec := -62135596800; time.nsec := 0; time.loc := time.UTC |}.

(** ** The two collaborator interfaces

    An implementation owns a state of some type [S]; a method takes the
    state and returns Go's result pair with the next state.  The
    [context.Context] argument is handed through unchanged by every
    handler and is left out. *)

(** [type DB interface]. *)
Class DB (S : Type) := {
  DB_ListMessages : Z -> Z -> S -> (list Message * option error) * S;
  DB_InsertMessage : Message -> S -> (Message * option error) * S
}.

(** [type Cache interface]. *)
Class Cache (S : Type) := {
  Cache_ListMessages : Z -> S -> (list Message * option error) * S;
  Cache_InsertMessage : Message -> S -> option error * S
}.

(** ** The handlers' surroundings: logger, response writer, request *)

Inductive Level := LevelInfo | LevelError.

(** A value of a [slog] attribute. *)
Inductive Attr := AInt (n : Z) | AString (s : string).

(** One record written through [a.Logger]. *)
Record LogRecord := {
  level : Level;
  message : string;
  attrs : list (string * Attr)
}.

(** The function-local struct types of the handlers, each in a module
    named after its handler. *)
Module listMessagesT.
Record message := {
  ID : string;
  Text : string;
  UserID : string;
  CreatedAt : string
}.
Record response := { Messages : list message }.
End listMessagesT.

Module createMessageT.
Module request.
Record t := { Text : string; UserID : string }.
End request.
Record response := {
  ID : string;
  Text : string;
  UserID : string;
  CreatedAt : string
}.
End createMessageT.

Module createReactionT.
Record request := { Type_ : string; Score : Z; UserID : string }.
End createReactionT.

Module respondErrorT.
Record response := { Error : string }.
End respondErrorT.

(** [body any] of [respond]: the values the handlers pass. *)
Inductive Body :=
| BError (r : respondErrorT.response)
| BMessages (r : listMessagesT.response)
| BMessage (r : createMessageT.response).

(** [http.ResponseWriter]: the header map, the status line once written,
    the bodies encoded onto the connection, and what the connection
    answers to a [Write]: [None] while it works, the error once it is
    broken. *)
Record ResponseWriter := {
  Header : list (string * string);
  Status : option Z;
  Written : list Body;
  WriteErr : option error
}.

(** The writer of a new request on a working connection. *)
Definition newResponseWriter : ResponseWriter :=
  {| Header := []; Status := None; Written := []; WriteErr := None |}.

Definition StatusOK : Z := 200.
Definition StatusCreated : Z := 201.
Definition StatusBadRequest : Z := 400.
Definition StatusInternalServerError : Z := 500.
Definition StatusNotImplemented : Z := 501.

(** [*http.Request], as far as the handlers read it: [r.Body] and
    [r.PathValue] of [messageID].  Closing the body has no effect the
    handlers or their callers could see and is left out. *)
Record Request := { Body_ : string; PathValue_messageID : string }.

(** A call through one of the two interface values. *)
Inductive Call :=
| CacheListMessages (limit : Z)
| DBListMessages (offset limit : Z)
| DBInsertMessage (msg : Message)
| CacheInsertMessage (msg : Message).

Definition isDBCall (c : Call) : bool :=
  match c with
  | DBListMessages _ _ | DBInsertMessage _ => true
  | _ => false
  end.

Definition isCacheCall (c : Call) : bool := negb (isDBCall c).

(** [fmt.Errorf(format, arg)] for a format that ends in its only verb,
    [%s], applied to a string. *)
Definition Errorf_s (prefix arg : string) : error := prefix ++ arg.

Definition len {A} (l : list A) : Z := Z.of_nat (List.length l).

Section Handlers.

Context {DBState CacheState : Type}.
Context `{DBImpl : DB DBState} `{CacheImpl : Cache CacheState}.

(** [json.NewDecoder(r.Body).Decode(&body)] at the two request types:
    the struct as decoded and the error. *)
Variable decodeMessage
  : string -> createMessageT.request.t * option error.
Variable decodeReaction
  : string -> createReactionT.request * option error.

(** Everything a handler can read or change. *)
Record World := {
  db : DBState;
  cache : CacheState;
  now : time.Time;          (* what [time.Now()] reads *)
  calls : list Call;        (* collaborator calls, oldest first *)
  logs : list LogRecord;    (* oldest first *)
  w : ResponseWriter
}.

Definition newWorld (d : DBState) (c : CacheState) (t : time.Time)
  : World :=
  {| db := d; cache := c; now := t; calls := []; logs := [];
     w := newResponseWriter |}.

(** The state monad of a handler. *)
Definition M (A : Type) : Type := World -> A * World.

Definition ret {A} (a : A) : M A := fun s => (a, s).

Definition bind {A B} (m : M A) (k : A -> M B) : M B :=
  fun s => let '(a, s') := m s in k a s'.

Notation "x <- m ;; k" := (bind m (fun x => k))
  (at level 61, m at next level, right associativity).
Notation "m ;;; k" := (bind m (fun _ => k))
  (at level 61, right associativity).

Definition exec {A} (m : M A) (s : World) : World := snd (m s).

Definition record (c : Call) : M unit :=
  fun s => (tt, {| db := db s; cache := cache s; now := now s;
                   calls := calls s ++ [c]; logs := logs s;
                   w := w s |}).

Definition time_Now : M time.Time := fun s => (now s, s).

(** Calls through the interface values [a.Cache] and [a.DB]. *)
Definition a_Cache_ListMessages (limit : Z)
  : M (list Message * option error) :=
  record (CacheListMessages limit) ;;;
  fun s =>
    let '(r, c') := Cache_ListMessages limit (cache s) in
    (r, {| db := db s; cache := c'; now := now s; calls := calls s;
           logs := logs s; w := w s |}).

Definition a_Cache_InsertMessage (msg : Message) : M (option error) :=
  record (CacheInsertMessage msg) ;;;
  fun s =>
    let '(r, c') := Cache_InsertMessage msg (cache s) in
    (r, {| db := db s; cache := c'; now := now s; calls := calls s;
           logs := logs s; w := w s |}).

Definition a_DB_ListMessages (offset limit : Z)
  : M (list Message * option error) :=
  record (DBListMessages offset limit) ;;;
  fun s =>
    let '(r, d') := DB_ListMessages offset limit (db s) in
    (r, {| db := d'; cache := cache s; now := now s; calls := calls s;
           logs := logs s; w := w s |}).

Definition a_DB_InsertMessage (msg : Message)
  : M (Message * option error) :=
  record (DBInsertMessage msg) ;;;
  fun s =>
    let '(r, d') := DB_InsertMessage msg (db s) in
    (r, {| db := d'; cache := cache s; now := now s; calls := calls s;
           logs := logs s; w := w s |}).

Definition Logger_log (l : Level) (msg : string)
  (kv : list (string * Attr)) : M unit :=
  fun s => (tt, {| db := db s; cache := cache s; now := now s;
                   calls := calls s;
                   logs := logs s
                           ++ [{| level := l; message := msg;
                                  attrs := kv |}];
                   w := w s |}).

Definition Logger_Info := Logger_log LevelInfo.
Definition Logger_Error := Logger_log LevelError.

Definition onWriter (f : ResponseWriter -> ResponseWriter) : M unit :=
  fun s => (tt, {| db := db s; cache := cache s; now := now s;
                   calls := calls s; logs := logs s; w := f (w s) |}).

(** [w.Header().Set(key, value)]: the entry replaces any entry of that
    key. *)
Definition Header_Set (key value : string) : M unit :=
  onWriter (fun rw =>
              {| Header := filter (fun kv => negb (fst kv =? key)%string)
                             (Header rw)
                           ++ [(key, value)];
                 Status := Status rw;
                 Written := Written rw;
                 WriteErr := WriteErr rw |}).

(** [w.WriteHeader(status)]: only the first call sets the status. *)
Definition WriteHeader (status : Z) : M unit :=
  onWriter (fun rw => {| Header := Header rw;
                         Status := match Status rw with
                                   | None => Some status
                                   | Some st => Some st
                                   end;
                         Written := Written rw;
                         WriteErr := WriteErr rw |}).

(** [json.NewEncoder(w).Encode(body)].  Marshalling the bodies above
    (structs of strings) does not fail; the encoder then writes the text
    to [w] and returns the error of that write, in which case nothing of
    the body is on the connection. *)
Definition Encode (body : Body) : M (option error) :=
  fun s =>
    match WriteErr (w s) with
    | Some e => (Some e, s)
    | None =>
        (onWriter (fun rw => {| Header := Header rw;
                                Status := Status rw;
                                Written := Written rw ++ [body];
                                WriteErr := WriteErr rw |}) ;;;
         ret None) s
    end.

(** [func (a *API) respond]. *)
Definition respond (status : Z) (body : Body) : M unit :=
  Header_Set "Content-Type" "application/json; charset=utf-8" ;;;
  WriteHeader status ;;;
  err <- Encode body ;;
  match err with
  | Some e => Logger_Error "Could not encode JSON body"
                [("error", AString e)]
  | None => ret tt
  end.

(** [func (a *API) respondError]. *)
Definition respondError (status : Z) (err : error) (msg : string)
  : M unit :=
  Logger_Error "Error" [("error", AString err)] ;;;
  respond status (BError {| respondErrorT.Error := msg |}).

(** The loop of [listMessages] that fills [out]. *)
Definition listMessages_out (msgs : list Message)
  : list listMessagesT.message :=
  map (fun msg =>
         {| listMessagesT.ID := ID msg;
            listMessagesT.Text := Text msg;
            listMessagesT.UserID := UserID msg;
            listMessagesT.CreatedAt :=
              time.Time_Format (CreatedAt msg) time.RFC1123 |})
      msgs.

(** The end of [listMessages], from [out := make(...)] on. *)
Definition listMessages_respond (msgs : list Message) : M unit :=
  let out := listMessages_out msgs in
  let res := {| listMessagesT.Messages := out |} in
  respond StatusOK (BMessages res).

(** [func (a *API) listMessages]. *)
Definition listMessages (r : Request) : M unit :=
  let pageSize := 10 in
  res <- a_Cache_ListMessages pageSize ;;
  let '(msgs, err) := res in
  match err with
  | Some e =>
      respondError StatusInternalServerError e "Could not list messages"
  | None =>
      let remain := pageSize - len msgs in
      Logger_Info "Got messages from cache"
        [("count", AInt (len msgs)); ("remain", AInt remain)] ;;;
      if remain >? 0 then
        res <- a_DB_ListMessages (len msgs) remain ;;
        let '(dbMsgs, err) := res in
        match err with
        | Some e =>
            respondError StatusInternalServerError e
              "Could not list messages"
        | None =>
            Logger_Info "Got remaining messages from DB"
              [("count", AInt (len dbMsgs))] ;;;
            listMessages_respond (msgs ++ dbMsgs)%list
        end
      else listMessages_respond msgs
  end.

(** [func (a *API) createMessage]. *)
Definition createMessage (r : Request) : M unit :=
  let '(body, err) := decodeMessage (Body_ r) in
  match err with
  | Some e =>
      respondError StatusBadRequest e "Could not decode request body"
  | None =>
      t <- time_Now ;;
      res <- a_DB_InsertMessage
               {| ID := "";
                  Text := createMessageT.request.Text body;
                  UserID := createMessageT.request.UserID body;
                  CreatedAt := t |} ;;
      let '(msg, err) := res in
      match err with
      | Some e =>
          respondError StatusInternalServerError e
            "Could not insert message"
      | None =>
          cerr <- a_Cache_InsertMessage msg ;;
          match cerr with
          | Some e => Logger_Error "Could not cache message"
                        [("error", AString e)]
          | None => ret tt
          end ;;;
          let res :=
            {| createMessageT.ID := ID msg;
               createMessageT.Text := Text msg;
               createMessageT.UserID := UserID msg;
               createMessageT.CreatedAt :=
                 time.Time_Format (CreatedAt msg) time.RFC1123 |} in
          respond StatusCreated (BMessage res)
      end
  end.

(** [func (a *API) createReaction]. *)
Definition createReaction (r : Request) : M unit :=
  let messageID := PathValue_messageID r in
  let '(body, err) := decodeReaction (Body_ r) in
  match err with
  | Some e =>
      respondError StatusBadRequest e "Could not decode request body"
  | None =>
      let err := Errorf_s
                   "could not create reaction for message with id "
                   messageID in
      respondError StatusNotImplemented err err
  end.

End Handlers.

Arguments World : clear implicits.

End api.

(* ===================================================================== *)
(** ** Package [postgres]: [postgres/postgres.go] *)
(* ===================================================================== *)

Module postgres.

(** Modelled from the spec: the row type [message] and its method
    [APIMessage] are declared in a file that is not among the sources.
    The row has the columns [InsertMessage] fills ([MessageText],
    [UserID]) and the two the database generates (identity and creation
    timestamp); [APIMessage] copies the four into an [api.Message]. *)
Record message := {
  ID : string;
  MessageText : string;
  UserID : string;
  CreatedAt : time.Time
}.

Definition APIMessage (m : message) : api.Message :=
  {| api.ID := ID m;
     api.Text := MessageText m;
     api.UserID := UserID m;
     api.CreatedAt := CreatedAt m |}.

Section Store.

(** The database behind [pg.bun], and the two queries run on it:
    [NewInsert().Model(m).Exec(ctx)] returns the row as the database
    completed it, [NewSelect()...Scan(ctx)] the rows selected. *)
Variable Conn : Type.
Variable bun_Insert
  : message -> Conn -> (message * option api.error) * Conn.
Variable bun_Select
  : Z -> Z -> Conn -> (list message * option api.error) * Conn.

(** [func (pg *Postgres) ListMessages]. *)
Definition ListMessages (offset limit : Z) (c : Conn)
  : (list api.Message * option api.error) * Conn :=
  let '((msgs, err), c') := bun_Select offset limit c in
  match err with
  | Some e => (([], Some (api.Errorf_s "scan: " e)), c')
  | None => ((map APIMessage msgs, None), c')
  end.

(** [func (pg *Postgres) InsertMessage]. *)
Definition InsertMessage (msg : api.Message) (c : Conn)
  : (api.Message * option api.error) * Conn :=
  let m := {| ID := "";
              MessageText := api.Text msg;
              UserID := api.UserID msg;
              CreatedAt := api.zeroTime |} in
  let '((m', err), c') := bun_Insert m c in
  match err with
  | Some e =>
      (({| api.ID := ""; api.Text := ""; api.UserID := "";
           api.CreatedAt := api.zeroTime |},
        Some (api.Errorf_s "insert: " e)), c')
  | None => ((APIMessage m', None), c')
  end.

(** [*Postgres] is used as the [api.DB] of the service. *)
#[export] Instance Postgres_DB : api.DB Conn :=
  {| api.DB_ListMessages := ListMessages;
     api.DB_InsertMessage := InsertMessage |}.

End Store.

End postgres.

(* ===================================================================== *)
(** ** The stubs of the package's tests: [testdb] and [testcache] *)
(* ===================================================================== *)

Module api_test.

(** [type testdb struct]: the closures the methods forward to. *)
Record testdb := {
  listMessages : Z -> Z -> list api.Message * option api.error;
  insertMessage : api.Message -> api.Message * option api.error
}.

(** [type testcache struct]. *)
Record testcache := {
  cache_listMessages : Z -> list api.Message * option api.error;
  cache_insertMessage : api.Message -> option api.error
}.

#[global] Instance testdb_DB : api.DB testdb :=
  {| api.DB_ListMessages := fun offset limit d =>
       (listMessages d offset limit, d);
     api.DB_InsertMessage := fun msg d => (insertMessage d msg, d) |}.

#[global] Instance testcache_Cache : api.Cache testcache :=
  {| api.Cache_ListMessages := fun limit c =>
       (cache_listMessages c limit, c);
     api.Cache_InsertMessage := fun msg c => (cache_insertMessage c msg, c) |}.

Definition hello : api.Message :=
  {| api.ID := "1"; api.Text := "Hello"; api.UserID := "testuser";
     api.CreatedAt := time.Date 2024 1 1 0 0 0 time.UTC |}.

Definition world : api.Message :=
  {| api.ID := "2"; api.Text := "World"; api.UserID := "testuser";
     api.CreatedAt := time.Date 2024 1 2 0 0 0 time.UTC |}.

(** The stubs of the case "Mixed" of [TestAPI_listMessages]. *)
Definition mixed_cache : testcache :=
  {| cache_listMessages := fun _ => ([hello], None);
     cache_insertMessage := fun _ => None |}.

Definition mixed_db : testdb :=
  {| listMessages := fun _ _ => ([world], None);
     insertMessage := fun msg => (msg, None) |}.

(** The stubs of the cases "DBError" and "CacheError". *)
Definition failing_cache : testcache :=
  {| cache_listMessages := fun _ => ([], Some "something went wrong");
     cache_insertMessage := fun _ => Some "something went wrong" |}.

Definition failing_db : testdb :=
  {| listMessages := fun _ _ => ([], Some "something went wrong");
     insertMessage := fun _ =>
       ({| api.ID := ""; api.Text := ""; api.UserID := "";
           api.CreatedAt := api.zeroTime |},
        Some "something went wrong") |}.

Definition empty_cache : testcache :=
  {| cache_listMessages := fun _ => ([], None);
     cache_insertMessage := fun _ => None |}.

(** The stub of the cases "CacheError" and "OK" of
    [TestAPI_createMessage]: the store assigns id 1 and a fixed time. *)
Definition inserting_db : testdb :=
  {| listMessages := fun _ _ => ([], None);
     insertMessage := fun msg =>
       ({| api.ID := "1"; api.Text := api.Text msg;
           api.UserID := api.UserID msg;
           api.CreatedAt := time.Date 2024 1 1 0 0 0 time.UTC |}, None) |}.

(** A cache holding one message whose timestamp is presented in a zone
    one hour east of UTC, and a store without messages. *)
Definition hello_cet : api.Message :=
  {| api.ID := "1"; api.Text := "Hello"; api.UserID := "testuser";
     api.CreatedAt := time.Time_In (time.Date 2024 1 1 0 0 0 time.UTC)
                        (time.FixedZone "CET" 3600) |}.

Definition cet_cache : testcache :=
  {| cache_listMessages := fun _ => ([hello_cet], None);
     cache_insertMessage := fun _ => None |}.

Definition empty_db : testdb :=
  {| listMessages := fun _ _ => ([], None);
     insertMessage := fun msg => (msg, None) |}.

(** A cache that ignores the limit it is given. *)
Definition overfull_cache : testcache :=
  {| cache_listMessages := fun _ => (repeat hello 11, None);
     cache_insertMessage := fun _ => None |}.

(** [GET /messages]. *)
Definition get_messages : api.Request :=
  {| api.Body_ := ""; api.PathValue_messageID := "" |}.

(** The double-quote character (code 34), and the JSON string literal of
    a text of letters, digits and underscores. *)
Definition dquote : string := String (ascii_of_nat 34) "".

Definition jstr (s : string) : string := dquote ++ s ++ dquote.

(** The JSON objects the tests send as bodies, without their white
    space: the object with [text] = hello and [user_id] = test, and the
    object with [type] = thumbs_up and [user_id] = test. *)
Definition hello_json : string :=
  "{" ++ jstr "text" ++ ":" ++ jstr "hello" ++ ","
      ++ jstr "user_id" ++ ":" ++ jstr "test" ++ "}".

Definition reaction_json : string :=
  "{" ++ jstr "type" ++ ":" ++ jstr "thumbs_up" ++ ","
      ++ jstr "user_id" ++ ":" ++ jstr "test" ++ "}".

(** [POST /messages] and [POST /messages/12345/reactions] with these
    bodies. *)
Definition post_message : api.Request :=
  {| api.Body_ := hello_json; api.PathValue_messageID := "" |}.

Definition post_reaction : api.Request :=
  {| api.Body_ := reaction_json; api.PathValue_messageID := "12345" |}.

Definition hello_request : api.createMessageT.request.t :=
  {| api.createMessageT.request.Text := "hello";
     api.createMessageT.request.UserID := "test" |}.

(** The message [inserting_db] returns. *)
Definition stored_hello : api.Message :=
  {| api.ID := "1"; api.Text := "hello"; api.UserID := "test";
     api.CreatedAt := time.Date 2024 1 1 0 0 0 time.UTC |}.

(** A reading of the clock: 6 May 2024, 07:08:09 UTC. *)
Definition clock : time.Time := time.Date 2024 5 6 7 8 9 time.UTC.

(** Stand-ins for the JSON decoder, each a table of the two bodies used
    with it below: the JSON object decodes to its fields (a field the
    object does not name keeps its zero value), and the body of the case
    "InvalidJSON" is refused with the error the decoder gives for it.  A
    body outside the table is answered like the second one and is used in
    no statement. *)
Definition decodeMessage (body : string)
  : api.createMessageT.request.t * option api.error :=
  if (body =? hello_json)%string then (hello_request, None)
  else
    ({| api.createMessageT.request.Text := "";
        api.createMessageT.request.UserID := "" |},
     Some "invalid character 'o' in literal null (expecting 'u')").

Definition decodeReaction (body : string)
  : api.createReactionT.request * option api.error :=
  if (body =? reaction_json)%string then
    ({| api.createReactionT.Type_ := "thumbs_up";
        api.createReactionT.Score := 0;
        api.createReactionT.UserID := "test" |}, None)
  else
    ({| api.createReactionT.Type_ := ""; api.createReactionT.Score := 0;
        api.createReactionT.UserID := "" |},
     Some "invalid character 'o' in literal null (expecting 'u')").

End api_test.

(* ===================================================================== *)
(** ** Vocabulary of the statements *)
(* ===================================================================== *)

Import api.

(** The writer after [respond status body] on a fresh writer. *)
Definition responded (status : Z) (body : Body) : ResponseWriter :=
  {| Header := [("Content-Type", "application/json; charset=utf-8")];
     Status := Some status;
     Written := [body];
     WriteErr := None |}.

(** The records the handlers log. *)
Definition errorLog (e : error) : LogRecord :=
  {| level := LevelError; message := "Error";
     attrs := [("error", AString e)] |}.

Definition cacheLog (n : Z) : LogRecord :=
  {| level := LevelInfo; message := "Got messages from cache";
     attrs := [("count", AInt n); ("remain", AInt (10 - n))] |}.

Definition dbLog (n : Z) : LogRecord :=
  {| level := LevelInfo; message := "Got remaining messages from DB";
     attrs := [("count", AInt n)] |}.

Definition cacheErrorLog (e : error) : LogRecord :=
  {| level := LevelError; message := "Could not cache message";
     attrs := [("error", AString e)] |}.

(** The message [createMessage] hands to [a.DB.InsertMessage]. *)
Definition newMessage (body : createMessageT.request.t) (t : time.Time)
  : Message :=
  {| ID := "";
     Text := createMessageT.request.Text body;
     UserID := createMessageT.request.UserID body;
     CreatedAt := t |}.

(** The body of the 201 response for a stored message. *)
Definition createdBody (msg : Message) : Body :=
  BMessage {| createMessageT.ID := ID msg;
              createMessageT.Text := Text msg;
              createMessageT.UserID := UserID msg;
              createMessageT.CreatedAt :=
                time.Time_Format (CreatedAt msg) time.RFC1123 |}.

(** The entry of a list response for a message: its identity, text and
    author as they are, and its creation timestamp in the layout
    [RFC1123]. *)
Definition listedMessage (m : Message) : listMessagesT.message :=
  {| listMessagesT.ID := ID m;
     listMessagesT.Text := Text m;
     listMessagesT.UserID := UserID m;
     listMessagesT.CreatedAt :=
       time.Time_Format (CreatedAt m) time.RFC1123 |}.

(** The same for a row of the PostgreSQL store. *)
Definition listedRow (row : postgres.message) : listMessagesT.message :=
  {| listMessagesT.ID := postgres.ID row;
     listMessagesT.Text := postgres.MessageText row;
     listMessagesT.UserID := postgres.UserID row;
     listMessagesT.CreatedAt :=
       time.Time_Format (postgres.CreatedAt row) time.RFC1123 |}.

(** The world of a new request on a connection whose writes answer
    [werr]: [newWorld] when [werr] is [None]. *)
Definition newWorldOn {DBState CacheState : Type} (werr : option error)
  (d : DBState) (c : CacheState) (t : time.Time)
  : World DBState CacheState :=
  {| db := d; cache := c; now := t; calls := []; logs := [];
     w := {| Header := []; Status := None; Written := [];
             WriteErr := werr |} |}.

(** The record [respond] logs when the body cannot be written. *)
Definition encodeErrorLog (e : error) : LogRecord :=
  {| level := LevelError; message := "Could not encode JSON body";
     attrs := [("error", AString e)] |}.

(** A handler has answered once, on a connection whose writes answer
    [werr]: the JSON content type is the only header and one of
    [statuses] is written; if the connection works, one body is written,
    one that [allowed] admits for the status; if it is broken, nothing is
    written and the last log record tells the write error. *)
Definition answeredOnce {DBState CacheState : Type} (werr : option error)
  (s' : World DBState CacheState) (statuses : list Z)
  (allowed : Z -> Body -> Prop) : Prop :=
  Header (w s') = [("Content-Type", "application/json; charset=utf-8")]
  /\ exists st,
       Status (w s') = Some st /\ In st statuses
       /\ match werr with
          | None => exists body, Written (w s') = [body] /\ allowed st body
          | Some e =>
              Written (w s') = []
              /\ exists earlier,
                   logs s' = (earlier ++ [encodeErrorLog e])%list
          end.

(** The [created_at] texts of a response body. *)
Definition createdAts (b : Body) : list string :=
  match b with
  | BError _ => []
  | BMessages r => map listMessagesT.CreatedAt (listMessagesT.Messages r)
  | BMessage r => [createMessageT.CreatedAt r]
  end.

(** Two and four decimal digits. *)
Definition two (n : Z) : string :=
  String (time.digit (n / 10)) (String (time.digit (n mod 10)) "").

Definition four (n : Z) : string :=
  String (time.digit (n / 1000))
    (String (time.digit (n / 100 mod 10)) (two (n mod 100))).

Definition shortDayNames : list string :=
  ["Sun"; "Mon"; "Tue"; "Wed"; "Thu"; "Fri"; "Sat"].

Definition shortMonthNames : list string :=
  ["Jan"; "Feb"; "Mar"; "Apr"; "May"; "Jun"; "Jul"; "Aug"; "Sep"; "Oct";
   "Nov"; "Dec"].

(** The text [Www, DD Mon YYYY HH:MM:SS ZONE] of a weekday (Sunday = 0), a
    day, a month (January = 1), a year as written, a time of day and a
    zone. *)
Definition rfc1123Text (wd day mon : Z) (year : string) (hh mm ss : Z)
  (zone : string) : string :=
  nth (Z.to_nat wd) shortDayNames "" ++ ", " ++ two day ++ " "
    ++ nth (Z.to_nat (mon - 1)) shortMonthNames "" ++ " " ++ year ++ " "
    ++ two hh ++ ":" ++ two mm ++ ":" ++ two ss ++ " " ++ zone.

(** The Gregorian calendar: leap years, the days of a month, the dates
    that exist. *)
Definition isLeap (y : Z) : bool :=
  (y mod 4 =? 0) && (negb (y mod 100 =? 0) || (y mod 400 =? 0)).

Definition daysIn (y m : Z) : Z :=
  if m =? 2 then (if isLeap y then 29 else 28)
  else if (m =? 4) || (m =? 6) || (m =? 9) || (m =? 11) then 30
  else 31.

Definition validDate (y m d : Z) : Prop :=
  1 <= m <= 12 /\ 1 <= d <= daysIn y m.

(** [abs] seconds of a wall clock (counted from 1970-01-01 00:00:00 of
    that clock) read as a date and a time of day. *)
Definition wallClock (abs : Z) (year mon day hh mm ss : Z) : Prop :=
  validDate year mon day
  /\ 0 <= hh < 24 /\ 0 <= mm < 60 /\ 0 <= ss < 60
  /\ time.daysFromCivil year mon day * 86400 + hh * 3600 + mm * 60 + ss
     = abs.

(** The text of a zone offset of [offset] seconds: sign, hours and
    minutes, as in [-0700]. *)
Definition offsetText (offset : Z) : string :=
  let zone := Z.quot offset 60 in
  (if zone <? 0 then "-" else "+")
    ++ time.appendInt (Z.abs zone / 60) 2
    ++ time.appendInt (Z.abs zone mod 60) 2.

(** On a year of the era, a month and a day that exists in it, the day
    of the era is in range and leads back to the three; [k] counts the
    triples. *)
Definition eraDateOK (k : Z) : bool :=
  let yoe := k / 372 in
  let m := k mod 372 / 31 + 1 in
  let d := k mod 31 + 1 in
  let y := if m <=? 2 then yoe + 1 else yoe in
  if d <=? daysIn y m then
    let doe := time.doeOfCivil yoe m d in
    (0 <=? doe) && (doe <? 146097)
    && (let '(yoe', m', d') := time.civilOfDoe doe in
        (yoe' =? yoe) && (m' =? m) && (d' =? d))
  else true.

(** The day of a day of the era exists in its month. *)
Definition eraDayValid (doe : Z) : bool :=
  let '(yoe, m, d) := time.civilOfDoe doe in
  d <=? daysIn (if m <=? 2 then yoe + 1 else yoe) m.

(** [f] holds on the [n] integers from [x] on. *)
Fixpoint allFrom (f : Z -> bool) (n : nat) (x : Z) : bool :=
  match n with
  | O => true
  | S n' => f x && allFrom f n' (x + 1)
  end.

(** On a day of the era the calendar fields are in range and lead back to
    the day. *)
Definition eraDayOK (doe : Z) : bool :=
  let '(yoe, m, d) := time.civilOfDoe doe in
  (0 <=? yoe) && (yoe <? 400) && (1 <=? m) && (m <=? 12) && (1 <=? d)
  && (d <=? 31) && (time.doeOfCivil yoe m d =? doe).

(** [*http.Request] as [ServeHTTP] reads it: [r.Method], [r.URL.Path],
    and what the routed handler reads. *)
Record HTTPRequest := {
  Method : string;
  URL_Path : string;
  request : Request
}.

Definition receivedLog (hr : HTTPRequest) : LogRecord :=
  {| level := LevelInfo; message := "Request received";
     attrs := [("method", AString (Method hr));
               ("path", AString (URL_Path hr))] |}.

(** [func (a *API) ServeHTTP], for the handler that [a.mux] routes the
    request to.  Which pattern of [setupRoutes] matches a request is
    decided inside [http.ServeMux] and is not modelled: the handler is
    given.  [a.once.Do(a.setupRoutes)] builds the mux on the first request
    and has no other effect. *)
Definition ServeHTTP {DBState CacheState : Type}
  (routed : Request -> M (DBState := DBState) (CacheState := CacheState) unit)
  (hr : HTTPRequest) : M (DBState := DBState) (CacheState := CacheState) unit :=
  bind (Logger_Info "Request received"
          [("method", AString (Method hr)); ("path", AString (URL_Path hr))])
       (fun _ => routed (request hr)).

(** [s'] is what [f'] is, with the record of the request before the
    other log records. *)
Definition served {DBState CacheState : Type} (hr : HTTPRequest)
  (f' s' : World DBState CacheState) : Prop :=
  logs s' = receivedLog hr :: logs f'
  /\ calls s' = calls f' /\ w s' = w f'
  /\ db s' = db f' /\ cache s' = cache f' /\ now s' = now f'.

(** The row [postgres.InsertMessage] hands to the database when
    [createMessage] calls it for a decoded body. *)
Definition insertedRow (body : createMessageT.request.t) : postgres.message :=
  {| postgres.ID := "";
     postgres.MessageText := createMessageT.request.Text body;
     postgres.UserID := createMessageT.request.UserID body;
     postgres.CreatedAt := zeroTime |}.

(** [t.Year()]. *)
Definition Time_Year (t : time.Time) : Z :=
  let '(_, _, abs) := time.locabs t in
  fst (fst (time.civil (abs / time.secondsPerDay))).

(** Stand-ins for the database behind [pg.bun], on a connection without
    state: a select that answers one row, and an insert that completes
    the row with id 7 and a time. *)
Definition stub_row : postgres.message :=
  {| postgres.ID := "2"; postgres.MessageText := "World";
     postgres.UserID := "testuser";
     postgres.CreatedAt := time.Date 2024 1 2 0 0 0 time.UTC |}.

Definition stub_Select (offset limit : Z) (conn : unit)
  : (list postgres.message * option error) * unit :=
  (([stub_row], None), conn).

Definition stub_Insert (m : postgres.message) (conn : unit)
  : (postgres.message * option error) * unit :=
  (({| postgres.ID := "7";
       postgres.MessageText := postgres.MessageText m;
       postgres.UserID := postgres.UserID m;
       postgres.CreatedAt := time.Date 2024 1 3 0 0 0 time.UTC |}, None),
   conn).

(* ===================================================================== *)
(** ** The list operation *)
(* ===================================================================== *)

Ltac run_handler :=
  unfold exec, listMessages, createMessage, createReaction,
    listMessages_respond, respondError, respond, a_Cache_ListMessages,
    a_Cache_InsertMessage, a_DB_ListMessages, a_DB_InsertMessage,
    Header_Set, WriteHeader, Encode, onWriter, Logger_Error, Logger_Info,
    Logger_log, record, time_Now, bind, ret, newWorld;
  cbn -[Z.gtb Z.sub len time.Time_Format].

Section ListMessages.

Context {DBState CacheState : Type}.
Context `{DBImpl : DB DBState} `{CacheImpl : Cache CacheState}.

Variables (r : Request) (d : DBState) (c : CacheState) (t : time.Time).

(** What [listMessages] leaves behind, by the three outcomes of the
    cache read. *)
Lemma listMessages_cache_error cmsgs e c' :
  Cache_ListMessages 10 c = ((cmsgs, Some e), c') ->
  exec (listMessages r) (newWorld d c t)
  = {| db := d; cache := c'; now := t;
       calls := [CacheListMessages 10];
       logs := [errorLog e];
       w := responded StatusInternalServerError
              (BError {| respondErrorT.Error := "Could not list messages" |})
    |}.
Proof.
  intros Hc. run_handler. rewrite Hc. reflexivity.
Qed.

Lemma listMessages_cache_full cmsgs c' :
  Cache_ListMessages 10 c = ((cmsgs, None), c') ->
  10 <= len cmsgs ->
  exec (listMessages r) (newWorld d c t)
  = {| db := d; cache := c'; now := t;
       calls := [CacheListMessages 10];
       logs := [cacheLog (len cmsgs)];
       w := responded StatusOK
              (BMessages
                 {| listMessagesT.Messages := listMessages_out cmsgs |})
    |}.
Proof.
  intros Hc Hlen. run_handler. rewrite Hc.
  destruct (Z.gtb_spec (10 - len cmsgs) 0) as [Hgt | _]; [lia |].
  reflexivity.
Qed.

Lemma listMessages_db_error cmsgs c' dmsgs e d' :
  Cache_ListMessages 10 c = ((cmsgs, None), c') ->
  len cmsgs < 10 ->
  DB_ListMessages (len cmsgs) (10 - len cmsgs) d = ((dmsgs, Some e), d') ->
  exec (listMessages r) (newWorld d c t)
  = {| db := d'; cache := c'; now := t;
       calls := [CacheListMessages 10;
                 DBListMessages (len cmsgs) (10 - len cmsgs)];
       logs := [cacheLog (len cmsgs); errorLog e];
       w := responded StatusInternalServerError
              (BError {| respondErrorT.Error := "Could not list messages" |})
    |}.
Proof.
  intros Hc Hlen Hd. run_handler. rewrite Hc.
  destruct (Z.gtb_spec (10 - len cmsgs) 0) as [_ | Hle]; [| lia].
  cbn -[Z.sub len]. rewrite Hd. reflexivity.
Qed.

Lemma listMessages_db_ok cmsgs c' dmsgs d' :
  Cache_ListMessages 10 c = ((cmsgs, None), c') ->
  len cmsgs < 10 ->
  DB_ListMessages (len cmsgs) (10 - len cmsgs) d = ((dmsgs, None), d') ->
  exec (listMessages r) (newWorld d c t)
  = {| db := d'; cache := c'; now := t;
       calls := [CacheListMessages 10;
                 DBListMessages (len cmsgs) (10 - len cmsgs)];
       logs := [cacheLog (len cmsgs); dbLog (len dmsgs)];
       w := responded StatusOK
              (BMessages
                 {| listMessagesT.Messages :=
                      listMessages_out (cmsgs ++ dmsgs) |})
    |}.
Proof.
  intros Hc Hlen Hd. run_handler. rewrite Hc.
  destruct (Z.gtb_spec (10 - len cmsgs) 0) as [_ | Hle]; [| lia].
  cbn -[Z.sub len]. rewrite Hd. reflexivity.
Qed.

(** C1.  When the cache read succeeds with [c] messages, the cache was
    asked for the page size 10; if [c < 10] the durable store's
    [ListMessages] is called exactly once, with offset [c] and limit
    [10 - c]; if [c >= 10] the durable store is not called at all. *)
Theorem list_durable_store_query cmsgs c' :
  Cache_ListMessages 10 c = ((cmsgs, None), c') ->
  let s' := exec (listMessages r) (newWorld d c t) in
  filter isCacheCall (calls s') = [CacheListMessages 10]
  /\ (len cmsgs < 10 ->
      filter isDBCall (calls s')
      = [DBListMessages (len cmsgs) (10 - len cmsgs)])
  /\ (10 <= len cmsgs -> filter isDBCall (calls s') = []).
Proof.
  intros Hc s'. subst s'.
  destruct (Z.lt_ge_cases (len cmsgs) 10) as [Hlt | Hge].
  - destruct (DB_ListMessages (len cmsgs) (10 - len cmsgs) d)
      as [[dmsgs [e |]] d'] eqn:Hd.
    + rewrite (listMessages_db_error _ _ _ _ _ Hc Hlt Hd). cbn.
      split; [reflexivity |]. split; [reflexivity | lia].
    + rewrite (listMessages_db_ok _ _ _ _ Hc Hlt Hd). cbn.
      split; [reflexivity |]. split; [reflexivity | lia].
  - rewrite (listMessages_cache_full _ _ Hc Hge). cbn.
    split; [reflexivity |]. split; [lia | reflexivity].
Qed.

(** The loop of [listMessages] turns each message into its entry. *)
Lemma listMessages_out_listed (msgs : list Message) :
  listMessages_out msgs = map listedMessage msgs.
Proof.
  unfold listMessages_out, listedMessage. reflexivity.
Qed.

(** C2.  Whenever the list operation succeeds (status 200), the cache
    read succeeded with some messages [cmsgs], the durable store either
    was not asked (and contributes nothing) or answered its one query
    with [dmsgs], and the response holds, entry by entry, the messages of
    [cmsgs] followed by those of [dmsgs], each in its own order and with
    its own identity, text, author and formatted timestamp; if both
    collaborators kept to the limit they were given, the response has at
    most 10 entries. *)
Theorem list_result_order :
  let s' := exec (listMessages r) (newWorld d c t) in
  Status (w s') = Some StatusOK ->
  exists cmsgs c' dmsgs,
    Cache_ListMessages 10 c = ((cmsgs, None), c')
    /\ (if 10 - len cmsgs >? 0
        then exists d', DB_ListMessages (len cmsgs) (10 - len cmsgs) d
                        = ((dmsgs, None), d')
        else dmsgs = [])
    /\ Written (w s')
       = [BMessages
            {| listMessagesT.Messages :=
                 (map listedMessage cmsgs ++ map listedMessage dmsgs)%list |}]
    /\ (len cmsgs <= 10 -> len dmsgs <= 10 - len cmsgs ->
        len (map listedMessage cmsgs ++ map listedMessage dmsgs)%list
        <= 10).
Proof.
  intros s'. subst s'.
  destruct (Cache_ListMessages 10 c) as [[cmsgs [e |]] c'] eqn:Hc.
  { rewrite (listMessages_cache_error _ _ _ Hc). discriminate. }
  assert (Hlen : forall dmsgs,
             len cmsgs <= 10 -> len dmsgs <= 10 - len cmsgs ->
             len (map listedMessage cmsgs ++ map listedMessage dmsgs)%list
             <= 10).
  { intros dmsgs. unfold len.
    rewrite length_app, !length_map. lia. }
  destruct (Z.lt_ge_cases (len cmsgs) 10) as [Hlt | Hge].
  - destruct (DB_ListMessages (len cmsgs) (10 - len cmsgs) d)
      as [[dmsgs [e |]] d'] eqn:Hd.
    + rewrite (listMessages_db_error _ _ _ _ _ Hc Hlt Hd). discriminate.
    + rewrite (listMessages_db_ok _ _ _ _ Hc Hlt Hd). intros _.
      exists cmsgs, c', dmsgs. split; [reflexivity |].
      destruct (Z.gtb_spec (10 - len cmsgs) 0) as [_ | Hle]; [| lia].
      split; [exists d'; exact Hd |].
      split; [| apply Hlen].
      cbn. rewrite listMessages_out_listed, map_app. reflexivity.
  - rewrite (listMessages_cache_full _ _ Hc Hge). intros _.
    exists cmsgs, c', []. split; [reflexivity |].
    destruct (Z.gtb_spec (10 - len cmsgs) 0) as [Hgt | _]; [lia |].
    split; [reflexivity |].
    split; [| apply Hlen].
    cbn. rewrite listMessages_out_listed, app_nil_r. reflexivity.
Qed.

(** C3.  When the cache read returns an error, the response is 500 with
    the body [{error: Could not list messages}], the durable store is
    neither called nor changed, and nothing the cache returned next to
    the error is written. *)
Theorem list_cache_error cmsgs e c' :
  Cache_ListMessages 10 c = ((cmsgs, Some e), c') ->
  let s' := exec (listMessages r) (newWorld d c t) in
  w s' = responded StatusInternalServerError
           (BError {| respondErrorT.Error := "Could not list messages" |})
  /\ filter isDBCall (calls s') = []
  /\ db s' = d.
Proof.
  intros Hc s'. subst s'.
  rewrite (listMessages_cache_error _ _ _ Hc). cbn.
  split; [reflexivity |]. split; reflexivity.
Qed.

(** C4.  When the cache read succeeds with fewer than 10 messages and the
    durable-store read returns an error, the response is 500 with the
    error body alone: the messages the cache gave are not written. *)
Theorem list_durable_store_error cmsgs c' dmsgs e d' :
  Cache_ListMessages 10 c = ((cmsgs, None), c') ->
  len cmsgs < 10 ->
  DB_ListMessages (len cmsgs) (10 - len cmsgs) d = ((dmsgs, Some e), d') ->
  let s' := exec (listMessages r) (newWorld d c t) in
  Status (w s') = Some StatusInternalServerError
  /\ Written (w s')
     = [BError {| respondErrorT.Error := "Could not list messages" |}].
Proof.
  intros Hc Hlt Hd s'. subst s'.
  rewrite (listMessages_db_error _ _ _ _ _ Hc Hlt Hd). cbn. split; reflexivity.
Qed.

(** C10.  When the cache returns more than 10 messages, the durable
    store is not called and the 200 response holds one entry for every
    message the cache returned, in the cache's order and with that
    message's identity, text, author and formatted timestamp, so it has
    more than 10 entries. *)
Theorem list_cache_overfull cmsgs c' :
  Cache_ListMessages 10 c = ((cmsgs, None), c') ->
  10 < len cmsgs ->
  let s' := exec (listMessages r) (newWorld d c t) in
  filter isDBCall (calls s') = []
  /\ w s' = responded StatusOK
              (BMessages
                 {| listMessagesT.Messages := map listedMessage cmsgs |})
  /\ len (map listedMessage cmsgs) = len cmsgs
  /\ 10 < len (map listedMessage cmsgs).
Proof.
  intros Hc Hgt s'. subst s'.
  rewrite (listMessages_cache_full _ _ Hc) by lia. cbn.
  rewrite listMessages_out_listed.
  assert (Hmap : len (map listedMessage cmsgs) = len cmsgs).
  { unfold len. rewrite length_map. reflexivity. }
  split; [reflexivity |]. split; [reflexivity |].
  split; [exact Hmap | lia].
Qed.

End ListMessages.

(** The case "Mixed" of [TestAPI_listMessages]: one message from the cache,
    the store asked for offset 1 and limit 9. *)
Lemma list_durable_store_query_witness :
  Cache_ListMessages 10 api_test.mixed_cache
  = (([api_test.hello], None), api_test.mixed_cache)
  /\ filter isDBCall
       (calls (exec (listMessages api_test.get_messages)
                 (newWorld api_test.mixed_db api_test.mixed_cache zeroTime)))
     = [DBListMessages 1 9].
Proof.
  split; [reflexivity |].
  apply (@list_durable_store_query _ _ api_test.testdb_DB
           api_test.testcache_Cache api_test.get_messages api_test.mixed_db
           api_test.mixed_cache zeroTime [api_test.hello]
           api_test.mixed_cache eq_refl).
  reflexivity.
Defined.

Lemma list_result_order_witness :
  Status (w (exec (listMessages api_test.get_messages)
               (newWorld api_test.mixed_db api_test.mixed_cache zeroTime)))
  = Some StatusOK
  /\ exists cmsgs c' dmsgs,
       Cache_ListMessages 10 api_test.mixed_cache = ((cmsgs, None), c')
       /\ (if 10 - len cmsgs >? 0
           then exists d', DB_ListMessages (len cmsgs) (10 - len cmsgs)
                             api_test.mixed_db
                           = ((dmsgs, None), d')
           else dmsgs = [])
       /\ Written (w (exec (listMessages api_test.get_messages)
                        (newWorld api_test.mixed_db api_test.mixed_cache
                           zeroTime)))
          = [BMessages
               {| listMessagesT.Messages :=
                    (map listedMessage cmsgs
                     ++ map listedMessage dmsgs)%list |}]
       /\ (len cmsgs <= 10 -> len dmsgs <= 10 - len cmsgs ->
           len (map listedMessage cmsgs ++ map listedMessage dmsgs)%list
           <= 10).
Proof.
  split; [reflexivity |].
  apply (@list_result_order _ _ api_test.testdb_DB api_test.testcache_Cache
           api_test.get_messages api_test.mixed_db api_test.mixed_cache
           zeroTime).
  reflexivity.
Defined.

(** The case "CacheError" of [TestAPI_listMessages]. *)
Lemma list_cache_error_witness :
  Cache_ListMessages 10 api_test.failing_cache
  = (([], Some "something went wrong"), api_test.failing_cache)
  /\ w (exec (listMessages api_test.get_messages)
          (newWorld api_test.mixed_db api_test.failing_cache zeroTime))
     = responded 500
         (BError {| respondErrorT.Error := "Could not list messages" |}).
Proof.
  split; [reflexivity |].
  apply (@list_cache_error _ _ api_test.testdb_DB api_test.testcache_Cache
           api_test.get_messages api_test.mixed_db api_test.failing_cache
           zeroTime [] "something went wrong" api_test.failing_cache eq_refl).
Defined.

(** The case "DBError" of [TestAPI_listMessages], with one message in the
    cache. *)
Lemma list_durable_store_error_witness :
  (Cache_ListMessages 10 api_test.mixed_cache
   = (([api_test.hello], None), api_test.mixed_cache)
   /\ len [api_test.hello] < 10
   /\ DB_ListMessages 1 9 api_test.failing_db
      = (([], Some "something went wrong"), api_test.failing_db))
  /\ Written (w (exec (listMessages api_test.get_messages)
                   (newWorld api_test.failing_db api_test.mixed_cache
                      zeroTime)))
     = [BError {| respondErrorT.Error := "Could not list messages" |}].
Proof.
  split; [repeat split |].
  apply (@list_durable_store_error _ _ api_test.testdb_DB
           api_test.testcache_Cache api_test.get_messages api_test.failing_db
           api_test.mixed_cache zeroTime [api_test.hello] api_test.mixed_cache
           [] "something went wrong" api_test.failing_db eq_refl eq_refl
           eq_refl).
Defined.

Lemma list_cache_overfull_witness :
  (Cache_ListMessages 10 api_test.overfull_cache
   = ((repeat api_test.hello 11, None), api_test.overfull_cache)
   /\ 10 < len (repeat api_test.hello 11))
  /\ w (exec (listMessages api_test.get_messages)
          (newWorld api_test.mixed_db api_test.overfull_cache zeroTime))
     = responded StatusOK
         (BMessages
            {| listMessagesT.Messages :=
                 map listedMessage (repeat api_test.hello 11) |}).
Proof.
  split; [split; reflexivity |].
  apply (@list_cache_overfull _ _ api_test.testdb_DB api_test.testcache_Cache
           api_test.get_messages api_test.mixed_db api_test.overfull_cache
           zeroTime (repeat api_test.hello 11) api_test.overfull_cache
           eq_refl eq_refl).
Defined.

(* ===================================================================== *)
(** ** The create operation *)
(* ===================================================================== *)

Section CreateMessage.

Context {DBState CacheState : Type}.
Context `{DBImpl : DB DBState} `{CacheImpl : Cache CacheState}.

Variable decodeMessage : string -> createMessageT.request.t * option error.
Variables (r : Request) (d : DBState) (t : time.Time).

Lemma createMessage_decode_error c body e :
  decodeMessage (Body_ r) = (body, Some e) ->
  exec (createMessage decodeMessage r) (newWorld d c t)
  = {| db := d; cache := c; now := t; calls := [];
       logs := [errorLog e];
       w := responded StatusBadRequest
              (BError {| respondErrorT.Error :=
                           "Could not decode request body" |}) |}.
Proof.
  intros Hb. run_handler. rewrite Hb. reflexivity.
Qed.

Lemma createMessage_db_error c body msg e d' :
  decodeMessage (Body_ r) = (body, None) ->
  DB_InsertMessage (newMessage body t) d = ((msg, Some e), d') ->
  exec (createMessage decodeMessage r) (newWorld d c t)
  = {| db := d'; cache := c; now := t;
       calls := [DBInsertMessage (newMessage body t)];
       logs := [errorLog e];
       w := responded StatusInternalServerError
              (BError {| respondErrorT.Error :=
                           "Could not insert message" |}) |}.
Proof.
  intros Hb Hd. run_handler. rewrite Hb. cbn.
  fold (newMessage body t). rewrite Hd. reflexivity.
Qed.

Lemma createMessage_stored c body msg d' cerr c' :
  decodeMessage (Body_ r) = (body, None) ->
  DB_InsertMessage (newMessage body t) d = ((msg, None), d') ->
  Cache_InsertMessage msg c = (cerr, c') ->
  exec (createMessage decodeMessage r) (newWorld d c t)
  = {| db := d'; cache := c'; now := t;
       calls := [DBInsertMessage (newMessage body t);
                 CacheInsertMessage msg];
       logs := match cerr with
               | Some e => [cacheErrorLog e]
               | None => []
               end;
       w := responded StatusCreated (createdBody msg) |}.
Proof.
  intros Hb Hd Hc. run_handler. rewrite Hb. cbn.
  fold (newMessage body t). rewrite Hd. cbn. rewrite Hc.
  destruct cerr; reflexivity.
Qed.

(** C5.  After a well-formed body: if the durable-store insert fails,
    the response is 500 and the cache is neither called nor changed; if
    the insert succeeds and the cache write fails, the response is the
    201 response of the stored message, the same as from any state in
    which the cache write succeeds, and the failure is the one record
    written to the log. *)
Theorem create_partial_failures c body :
  decodeMessage (Body_ r) = (body, None) ->
  let s' := exec (createMessage decodeMessage r) (newWorld d c t) in
  (forall msg e d',
      DB_InsertMessage (newMessage body t) d = ((msg, Some e), d') ->
      w s' = responded StatusInternalServerError
               (BError {| respondErrorT.Error :=
                            "Could not insert message" |})
      /\ filter isCacheCall (calls s') = []
      /\ cache s' = c)
  /\ (forall msg d' e c',
        DB_InsertMessage (newMessage body t) d = ((msg, None), d') ->
        Cache_InsertMessage msg c = (Some e, c') ->
        w s' = responded StatusCreated (createdBody msg)
        /\ logs s' = [cacheErrorLog e]
        /\ forall c2 c2',
             Cache_InsertMessage msg c2 = (None, c2') ->
             w (exec (createMessage decodeMessage r) (newWorld d c2 t))
             = w s').
Proof.
  intros Hb s'. subst s'. split.
  - intros msg e d' Hd.
    rewrite (createMessage_db_error _ _ _ _ _ Hb Hd). cbn.
    split; [reflexivity |]. split; reflexivity.
  - intros msg d' e c' Hd Hc.
    rewrite (createMessage_stored _ _ _ _ _ _ Hb Hd Hc). cbn.
    split; [reflexivity |]. split; [reflexivity |].
    intros c2 c2' Hc2.
    rewrite (createMessage_stored _ _ _ _ _ _ Hb Hd Hc2). reflexivity.
Qed.

(** C6.  Whenever the create operation succeeds (status 201), the body
    decoded, the durable store returned a message [msg] for the insert,
    and the response carries the identity, text, author and creation
    timestamp of [msg] (the timestamp formatted), whatever the request
    held. *)
Theorem create_response_from_store c :
  let s' := exec (createMessage decodeMessage r) (newWorld d c t) in
  Status (w s') = Some StatusCreated ->
  exists body msg d',
    decodeMessage (Body_ r) = (body, None)
    /\ DB_InsertMessage (newMessage body t) d = ((msg, None), d')
    /\ Written (w s')
       = [BMessage
            {| createMessageT.ID := ID msg;
               createMessageT.Text := Text msg;
               createMessageT.UserID := UserID msg;
               createMessageT.CreatedAt :=
                 time.Time_Format (CreatedAt msg) time.RFC1123 |}].
Proof.
  intros s'. subst s'.
  destruct (decodeMessage (Body_ r)) as [body [e |]] eqn:Hb.
  { rewrite (createMessage_decode_error _ _ _ Hb). discriminate. }
  destruct (DB_InsertMessage (newMessage body t) d)
    as [[msg [e |]] d'] eqn:Hd.
  { rewrite (createMessage_db_error _ _ _ _ _ Hb Hd). discriminate. }
  destruct (Cache_InsertMessage msg c) as [cerr c'] eqn:Hc.
  rewrite (createMessage_stored _ _ _ _ _ _ Hb Hd Hc). intros _.
  exists body, msg, d'. split; [reflexivity |]. split; [exact Hd |].
  reflexivity.
Qed.

End CreateMessage.

(** The case "CacheError" of [TestAPI_createMessage]. *)
Lemma create_partial_failures_witness :
  api_test.decodeMessage (Body_ api_test.post_message)
  = (api_test.hello_request, None)
  /\ logs (exec (createMessage api_test.decodeMessage api_test.post_message)
             (newWorld api_test.inserting_db api_test.failing_cache
                api_test.clock))
     = [cacheErrorLog "something went wrong"].
Proof.
  split; [reflexivity |].
  apply (proj2 (@create_partial_failures _ _ api_test.testdb_DB
                  api_test.testcache_Cache api_test.decodeMessage
                  api_test.post_message api_test.inserting_db api_test.clock
                  api_test.failing_cache api_test.hello_request eq_refl)
           api_test.stored_hello api_test.inserting_db
           "something went wrong" api_test.failing_cache eq_refl eq_refl).
Defined.

(** The case "OK" of [TestAPI_createMessage]. *)
Lemma create_response_from_store_witness :
  Status (w (exec (createMessage api_test.decodeMessage api_test.post_message)
               (newWorld api_test.inserting_db api_test.empty_cache
                  api_test.clock)))
  = Some StatusCreated
  /\ exists body msg d',
       api_test.decodeMessage (Body_ api_test.post_message) = (body, None)
       /\ DB_InsertMessage (newMessage body api_test.clock)
            api_test.inserting_db
          = ((msg, None), d')
       /\ Written (w (exec (createMessage api_test.decodeMessage
                              api_test.post_message)
                        (newWorld api_test.inserting_db api_test.empty_cache
                           api_test.clock)))
          = [BMessage
               {| createMessageT.ID := ID msg;
                  createMessageT.Text := Text msg;
                  createMessageT.UserID := UserID msg;
                  createMessageT.CreatedAt :=
                    time.Time_Format (CreatedAt msg) time.RFC1123 |}].
Proof.
  split; [reflexivity |].
  apply (@create_response_from_store _ _ api_test.testdb_DB
           api_test.testcache_Cache api_test.decodeMessage
           api_test.post_message api_test.inserting_db api_test.clock
           api_test.empty_cache).
  reflexivity.
Defined.

(** C7, as stated, fails: on the request of the case "OK" (its JSON
    body decodes to the text hello and the author test), with the clock
    at 6 May 2024, the message handed to the durable-store insert carries
    the clock's reading as its creation timestamp, not the zero time of a
    message without one. *)
Lemma create_sets_timestamp_counterexample :
  Body_ api_test.post_message = api_test.hello_json
  /\ api_test.decodeMessage api_test.hello_json
     = (api_test.hello_request, None)
  /\ exists msg,
       calls (exec (createMessage api_test.decodeMessage
                      api_test.post_message)
                (newWorld api_test.inserting_db api_test.empty_cache
                   api_test.clock))
       = [DBInsertMessage msg; CacheInsertMessage api_test.stored_hello]
       /\ CreatedAt msg = api_test.clock
       /\ CreatedAt msg <> zeroTime.
Proof.
  split; [reflexivity |]. split; [reflexivity |].
  exists (newMessage api_test.hello_request api_test.clock).
  split; [reflexivity |]. split; [reflexivity |].
  vm_compute. discriminate.
Qed.

(** C7, amended.  After a well-formed body, the message the orchestrator
    hands to the durable-store insert has an empty identity, the text and
    author of the request and the clock's reading as creation timestamp;
    when the insert succeeds, the message it hands to the cache is the
    store's returned message, unchanged (what a cache does with it is its
    implementation's matter).  The PostgreSQL store takes only text and
    author from the message it is given: two messages that agree on those
    are inserted alike, and the row handed to the database has no
    identity and the zero timestamp, so both are the database's to
    assign. *)
Theorem create_identity_and_timestamp
  {DBState CacheState : Type} `{DBImpl : DB DBState}
  `{CacheImpl : Cache CacheState}
  (decodeMessage : string -> createMessageT.request.t * option error)
  (r : Request) (d : DBState) (c : CacheState) (t : time.Time)
  (body : createMessageT.request.t) :
  decodeMessage (Body_ r) = (body, None) ->
  let s' := exec (createMessage decodeMessage r) (newWorld d c t) in
  let sent := {| ID := "";
                 Text := createMessageT.request.Text body;
                 UserID := createMessageT.request.UserID body;
                 CreatedAt := t |} in
  (forall msg d',
      DB_InsertMessage sent d = ((msg, None), d') ->
      calls s' = [DBInsertMessage sent; CacheInsertMessage msg])
  /\ (forall msg e d',
        DB_InsertMessage sent d = ((msg, Some e), d') ->
        calls s' = [DBInsertMessage sent])
  /\ (forall (Conn : Type) bun_Insert (conn : Conn) (m1 m2 : Message),
        Text m1 = Text m2 -> UserID m1 = UserID m2 ->
        postgres.InsertMessage Conn bun_Insert m1 conn
        = postgres.InsertMessage Conn bun_Insert m2 conn)
  /\ (forall (Conn : Type) bun_Insert (conn conn' : Conn) (m : Message) row,
        bun_Insert {| postgres.ID := "";
                      postgres.MessageText := Text m;
                      postgres.UserID := UserID m;
                      postgres.CreatedAt := zeroTime |} conn
        = ((row, None), conn') ->
        postgres.InsertMessage Conn bun_Insert m conn
        = ((postgres.APIMessage row, None), conn')).
Proof.
  intros Hb s' sent. subst s'.
  change sent with (newMessage body t).
  split; [| split; [| split]].
  - intros msg d' Hd.
    destruct (Cache_InsertMessage msg c) as [cerr c'] eqn:Hc.
    rewrite (createMessage_stored _ _ _ _ _ _ _ _ _ _ Hb Hd Hc). reflexivity.
  - intros msg e d' Hd.
    rewrite (createMessage_db_error _ _ _ _ _ _ _ _ _ Hb Hd). reflexivity.
  - intros Conn bun_Insert conn m1 m2 Ht Hu.
    unfold postgres.InsertMessage. rewrite Ht, Hu. reflexivity.
  - intros Conn bun_Insert conn conn' m row Hrow.
    unfold postgres.InsertMessage. rewrite Hrow. reflexivity.
Qed.

Lemma create_identity_and_timestamp_witness :
  api_test.decodeMessage (Body_ api_test.post_message)
  = (api_test.hello_request, None)
  /\ calls (exec (createMessage api_test.decodeMessage api_test.post_message)
              (newWorld api_test.inserting_db api_test.empty_cache
                 api_test.clock))
     = [DBInsertMessage
          {| ID := ""; Text := "hello"; UserID := "test";
             CreatedAt := api_test.clock |};
        CacheInsertMessage api_test.stored_hello].
Proof.
  split; [reflexivity |].
  apply (proj1 (@create_identity_and_timestamp _ _ api_test.testdb_DB
                  api_test.testcache_Cache api_test.decodeMessage
                  api_test.post_message api_test.inserting_db
                  api_test.empty_cache api_test.clock api_test.hello_request
                  eq_refl)
           api_test.stored_hello api_test.inserting_db eq_refl).
Defined.

(* ===================================================================== *)
(** ** Reaction creation *)
(* ===================================================================== *)

(** C9.  [createReaction] calls neither collaborator and leaves both as
    they were.  If the body does not decode, the response is 400 with the
    generic decode message; if it decodes, the response is 501 and its
    error text is the fixed sentence followed by the message id of the
    path, whatever that id is. *)
Theorem reaction_not_implemented
  {DBState CacheState : Type} `{DBImpl : DB DBState}
  `{CacheImpl : Cache CacheState}
  (decodeReaction : string -> createReactionT.request * option error)
  (r : Request) (d : DBState) (c : CacheState) (t : time.Time) :
  let s' := exec (createReaction decodeReaction r) (newWorld d c t) in
  calls s' = [] /\ db s' = d /\ cache s' = c
  /\ match snd (decodeReaction (Body_ r)) with
     | Some _ =>
         w s' = responded StatusBadRequest
                  (BError {| respondErrorT.Error :=
                               "Could not decode request body" |})
     | None =>
         w s' = responded StatusNotImplemented
                  (BError {| respondErrorT.Error :=
                               "could not create reaction for message with id "
                               ++ PathValue_messageID r |})
     end.
Proof.
  intros s'. subst s'. run_handler.
  destruct (decodeReaction (Body_ r)) as [body [e |]]; cbn;
    repeat (split; [reflexivity |]); reflexivity.
Qed.

(* ===================================================================== *)
(** ** Timestamps in responses *)
(* ===================================================================== *)

Lemma allFrom_spec f n : forall x,
  allFrom f n x = true ->
  forall y, x <= y < x + Z.of_nat n -> f y = true.
Proof.
  induction n as [| n IH]; intros x Hall y Hy.
  - cbn in Hy. lia.
  - cbn [allFrom] in Hall. apply andb_prop in Hall as [Hx Hrest].
    destruct (Z.eq_dec y x) as [-> | Hne]; [exact Hx |].
    apply (IH (x + 1) Hrest). lia.
Qed.

Lemma eraDayOK_all doe : 0 <= doe < 146097 -> eraDayOK doe = true.
Proof.
  intros H.
  apply (allFrom_spec eraDayOK (Z.to_nat 146097) 0); [| lia].
  vm_compute. reflexivity.
Qed.

(** [civil] gives a month and a day in range, and [daysFromCivil] leads
    back from the date to the day count. *)
Lemma civil_spec days :
  let '(y, m, d) := time.civil days in
  1 <= m <= 12 /\ 1 <= d <= 31 /\ time.daysFromCivil y m d = days.
Proof.
  unfold time.civil.
  set (z := days + 719468).
  assert (Hdoe : 0 <= z mod 146097 < 146097)
    by (apply Z.mod_pos_bound; lia).
  pose proof (eraDayOK_all _ Hdoe) as Hok.
  unfold eraDayOK in Hok.
  destruct (time.civilOfDoe (z mod 146097)) as [[yoe m] d].
  repeat (apply andb_prop in Hok; destruct Hok as [Hok ?]).
  repeat match goal with
         | H : (_ <=? _) = true |- _ => apply Z.leb_le in H
         | H : (_ <? _) = true |- _ => apply Z.ltb_lt in H
         | H : (_ =? _) = true |- _ => apply Z.eqb_eq in H
         end.
  split; [lia |]. split; [lia |].
  unfold time.daysFromCivil.
  assert (Hy : (if m <=? 2
                then (if m <=? 2 then yoe + z / 146097 * 400 + 1
                      else yoe + z / 146097 * 400) - 1
                else (if m <=? 2 then yoe + z / 146097 * 400 + 1
                      else yoe + z / 146097 * 400))
               = yoe + z / 146097 * 400)
    by (destruct (m <=? 2); lia).
  rewrite Hy.
  rewrite Z.div_add, Z.mod_add by lia.
  rewrite Z.div_small, Z.mod_small by lia.
  pose proof (Z.div_mod z 146097 ltac:(lia)). lia.
Qed.

(** The time of day of wall-clock seconds. *)
Lemma clock_spec abs :
  let secs := abs mod time.secondsPerDay in
  let hh := secs / 3600 in
  let mm := secs mod 3600 / 60 in
  let ss := secs mod 60 in
  0 <= hh < 24 /\ 0 <= mm < 60 /\ 0 <= ss < 60
  /\ abs / time.secondsPerDay * 86400 + hh * 3600 + mm * 60 + ss = abs.
Proof.
  unfold time.secondsPerDay. cbv zeta.
  Z.div_mod_to_equations. lia.
Qed.

(** The fast paths of [appendInt]: two and four digits. *)
Lemma appendInt_two x : 0 <= x < 100 -> time.appendInt x 2 = two x.
Proof.
  intros H.
  assert (Hb : (time.appendInt x 2 =? two x)%string = true).
  { apply (allFrom_spec (fun x => (time.appendInt x 2 =? two x)%string)
             100 0); [vm_compute; reflexivity | lia]. }
  apply String.eqb_eq. exact Hb.
Qed.

Lemma appendInt_four x : 0 <= x <= 9999 -> time.appendInt x 4 = four x.
Proof.
  intros H.
  assert (Hb : (time.appendInt x 4 =? four x)%string = true).
  { apply (allFrom_spec (fun x => (time.appendInt x 4 =? four x)%string)
             (Z.to_nat 10000) 0); [vm_compute; reflexivity | lia]. }
  apply String.eqb_eq. exact Hb.
Qed.

Lemma shortDayName wd :
  0 <= wd < 7 ->
  time.abbrev (nth (Z.to_nat wd) time.longDayNames "")
  = nth (Z.to_nat wd) shortDayNames "".
Proof.
  intros H.
  assert (Hwd : wd = 0 \/ wd = 1 \/ wd = 2 \/ wd = 3 \/ wd = 4 \/ wd = 5
                \/ wd = 6) by lia.
  repeat (destruct Hwd as [-> | Hwd]; [reflexivity |]).
  subst wd. reflexivity.
Qed.

Lemma shortMonthName m :
  1 <= m <= 12 ->
  time.abbrev (nth (Z.to_nat (m - 1)) time.longMonthNames "")
  = nth (Z.to_nat (m - 1)) shortMonthNames "".
Proof.
  intros H.
  assert (Hm : m = 1 \/ m = 2 \/ m = 3 \/ m = 4 \/ m = 5 \/ m = 6 \/ m = 7
               \/ m = 8 \/ m = 9 \/ m = 10 \/ m = 11 \/ m = 12) by lia.
  repeat (destruct Hm as [-> | Hm]; [reflexivity |]).
  subst m. reflexivity.
Qed.

(** The text of the layout [RFC1123] for wall-clock seconds [abs] in a
    zone called [name] at [offset]. *)
Lemma format_RFC1123_text name offset abs :
  let days := abs / time.secondsPerDay in
  let secs := abs mod time.secondsPerDay in
  forall year mon day,
    time.civil days = (year, mon, day) ->
    String.concat "" (map (time.formatChunk name offset abs) time.RFC1123)
    = rfc1123Text (time.weekday days) day mon (time.appendInt year 4)
        (secs / 3600) (secs mod 3600 / 60) (secs mod 60)
        (time.zoneText name offset).
Proof.
  intros days secs year mon day Hcivil.
  pose proof (civil_spec days) as Hspec. rewrite Hcivil in Hspec.
  destruct Hspec as (Hmon & Hday & _).
  pose proof (clock_spec abs) as Hclock. cbv zeta in Hclock.
  fold secs in Hclock. destruct Hclock as (Hhh & Hmm & Hss & _).
  assert (Hwd : 0 <= time.weekday days < 7)
    by (unfold time.weekday; apply Z.mod_pos_bound; lia).
  unfold time.RFC1123, time.formatChunk. cbv zeta.
  fold days secs. rewrite Hcivil.
  cbn [map String.concat].
  rewrite !appendInt_two by lia.
  rewrite shortDayName, shortMonthName by assumption.
  unfold rfc1123Text. reflexivity.
Qed.

Lemma isLeap_era (y k : Z) : isLeap (y + k * 400) = isLeap y.
Proof.
  unfold isLeap.
  replace ((y + k * 400) mod 4) with (y mod 4)
    by (replace (k * 400) with (k * 100 * 4) by lia;
        rewrite Z.mod_add by lia; reflexivity).
  replace ((y + k * 400) mod 100) with (y mod 100)
    by (replace (k * 400) with (k * 4 * 100) by lia;
        rewrite Z.mod_add by lia; reflexivity).
  rewrite Z.mod_add by lia. reflexivity.
Qed.

Lemma daysIn_era (y k m : Z) : daysIn (y + k * 400) m = daysIn y m.
Proof.
  unfold daysIn. rewrite isLeap_era. reflexivity.
Qed.

Lemma eraDayValid_all doe : 0 <= doe < 146097 -> eraDayValid doe = true.
Proof.
  intros H.
  apply (allFrom_spec eraDayValid (Z.to_nat 146097) 0); [| lia].
  vm_compute. reflexivity.
Qed.

Lemma eraDateOK_all k : 0 <= k < 148800 -> eraDateOK k = true.
Proof.
  intros H.
  apply (allFrom_spec eraDateOK (Z.to_nat 148800) 0); [| lia].
  vm_compute. reflexivity.
Qed.

(** The date [civil] gives exists in the calendar. *)
Lemma civil_valid days :
  let '(y, m, d) := time.civil days in validDate y m d.
Proof.
  pose proof (civil_spec days) as Hspec.
  unfold time.civil in *.
  set (z := days + 719468) in *.
  assert (Hdoe : 0 <= z mod 146097 < 146097)
    by (apply Z.mod_pos_bound; lia).
  pose proof (eraDayValid_all _ Hdoe) as Hok.
  unfold eraDayValid in Hok.
  destruct (time.civilOfDoe (z mod 146097)) as [[yoe m] d].
  destruct Hspec as (Hm & Hd & _).
  apply Z.leb_le in Hok.
  unfold validDate. split; [exact Hm |]. split; [lia |].
  replace (if m <=? 2 then yoe + z / 146097 * 400 + 1
           else yoe + z / 146097 * 400)
    with ((if m <=? 2 then yoe + 1 else yoe) + z / 146097 * 400)
    by (destruct (m <=? 2); lia).
  rewrite daysIn_era. exact Hok.
Qed.

(** A date that exists is the date of its day count. *)
Lemma civil_daysFromCivil y m d :
  validDate y m d -> time.civil (time.daysFromCivil y m d) = (y, m, d).
Proof.
  intros (Hm & Hd).
  unfold time.daysFromCivil.
  set (y' := if m <=? 2 then y - 1 else y).
  set (era := y' / 400). set (yoe := y' mod 400).
  assert (Hyoe : 0 <= yoe < 400) by (apply Z.mod_pos_bound; lia).
  assert (Hy' : y' = yoe + era * 400)
    by (unfold yoe, era; pose proof (Z.div_mod y' 400 ltac:(lia)); lia).
  assert (Hy : y = (if m <=? 2 then yoe + 1 else yoe) + era * 400)
    by (unfold y' in Hy'; destruct (m <=? 2); lia).
  assert (Hd31 : d <= 31).
  { destruct Hd as [_ Hd]. unfold daysIn in Hd.
    destruct (m =? 2); [destruct (isLeap y); lia |].
    destruct ((m =? 4) || (m =? 6) || (m =? 9) || (m =? 11)); lia. }
  set (k := yoe * 372 + (m - 1) * 31 + (d - 1)).
  assert (Hk : 0 <= k < 148800) by (unfold k; lia).
  assert (Hk1 : k / 372 = yoe).
  { unfold k. symmetry.
    apply (Z.div_unique _ _ _ ((m - 1) * 31 + (d - 1))); lia. }
  assert (Hk2 : k mod 372 = (m - 1) * 31 + (d - 1)).
  { unfold k. symmetry. apply (Z.mod_unique _ _ yoe); lia. }
  assert (Hk3 : k mod 372 / 31 + 1 = m).
  { rewrite Hk2.
    replace ((m - 1) * 31 + (d - 1)) with ((d - 1) + (m - 1) * 31) by lia.
    rewrite Z.div_add by lia. rewrite Z.div_small by lia. lia. }
  assert (Hk4 : k mod 31 + 1 = d).
  { unfold k.
    replace (yoe * 372 + (m - 1) * 31 + (d - 1))
      with ((d - 1) + (yoe * 12 + (m - 1)) * 31) by lia.
    rewrite Z.mod_add by lia. rewrite Z.mod_small by lia. lia. }
  pose proof (eraDateOK_all k Hk) as Hok.
  unfold eraDateOK in Hok. cbv zeta in Hok.
  rewrite Hk1, Hk3, Hk4 in Hok.
  assert (Hdays : (d <=? daysIn (if m <=? 2 then yoe + 1 else yoe) m)
                  = true).
  { apply Z.leb_le. rewrite <- (daysIn_era _ era), <- Hy. lia. }
  rewrite Hdays in Hok.
  destruct (time.civilOfDoe (time.doeOfCivil yoe m d)) as [[yoe' m'] d']
    eqn:Hcivil.
  repeat match goal with
         | H : (_ && _) = true |- _ =>
             apply andb_prop in H; destruct H
         | H : (_ <=? _) = true |- _ => apply Z.leb_le in H
         | H : (_ <? _) = true |- _ => apply Z.ltb_lt in H
         | H : (_ =? _) = true |- _ => apply Z.eqb_eq in H
         end.
  subst yoe' m' d'.
  unfold time.civil.
  replace (era * 146097 + time.doeOfCivil yoe m d - 719468 + 719468)
    with (time.doeOfCivil yoe m d + era * 146097) by lia.
  rewrite Z.div_add, Z.mod_add by lia.
  rewrite Z.div_small, Z.mod_small by lia.
  rewrite Hcivil. do 2 f_equal.
  revert Hy. destruct (m <=? 2); intros Hy; lia.
Qed.

(** A wall clock has one reading. *)
Lemma wallClock_unique abs y m d hh mm ss y' m' d' hh' mm' ss' :
  wallClock abs y m d hh mm ss ->
  wallClock abs y' m' d' hh' mm' ss' ->
  (y', m', d', hh', mm', ss') = (y, m, d, hh, mm, ss).
Proof.
  intros (Hv & Hh & Hm & Hs & Heq) (Hv' & Hh' & Hm' & Hs' & Heq').
  assert (Hdays : time.daysFromCivil y' m' d' = time.daysFromCivil y m d)
    by lia.
  pose proof (civil_daysFromCivil _ _ _ Hv) as Hc.
  pose proof (civil_daysFromCivil _ _ _ Hv') as Hc'.
  rewrite Hdays, Hc in Hc'. injection Hc' as -> -> ->.
  assert (hh' = hh) by lia. assert (mm' = mm) by lia.
  assert (ss' = ss) by lia. subst. reflexivity.
Qed.

Lemma locabs_spec t :
  exists name offset,
    time.locabs t = (name, offset, time.unixSec t + offset)
    /\ (time.loc t = time.UTC -> name = "UTC" /\ offset = 0).
Proof.
  unfold time.locabs. destruct (time.loc t) as [| lookup].
  - exists "UTC", 0. rewrite Z.add_0_r. split; [reflexivity |].
    intros _. split; reflexivity.
  - destruct (lookup (time.unixSec t)) as [name offset].
    exists name, offset. split; [reflexivity | discriminate].
Qed.

(** C8, as stated, fails: a message whose timestamp is presented in a zone
    one hour east of UTC is listed with the wall clock and the
    abbreviation of that zone, not with the UTC text of its instant. *)
Lemma timestamp_not_normalized_counterexample :
  Written (w (exec (listMessages api_test.get_messages)
                (newWorld api_test.empty_db api_test.cet_cache zeroTime)))
  = [BMessages
       {| listMessagesT.Messages :=
            [{| listMessagesT.ID := "1";
                listMessagesT.Text := "Hello";
                listMessagesT.UserID := "testuser";
                listMessagesT.CreatedAt :=
                  "Mon, 01 Jan 2024 01:00:00 CET" |}] |}]
  /\ time.Time_Format (time.Time_UTC (CreatedAt api_test.hello_cet))
       time.RFC1123
     = "Mon, 01 Jan 2024 00:00:00 UTC".
Proof.
  split; vm_compute; reflexivity.
Qed.

(** C8, amended.  Every [created_at] in a list or create response is the
    layout [RFC1123] applied to the timestamp of its message as the
    collaborator returned it, in the timestamp's own location: the
    handlers make no conversion to UTC.  For a timestamp whose wall clock
    shows a year from 0 to 9999 the text is
    [Www, DD Mon YYYY HH:MM:SS ZONE], where the date and the time of day
    are the one reading of the location's wall clock (the instant plus
    the zone's offset, on the proleptic Gregorian calendar), the weekday
    is that of the date, and the zone is the location's abbreviation or,
    for a zone without one, its offset as sign, hours and minutes; for a
    timestamp located in UTC that is the UTC date and time followed by
    UTC. *)
Theorem timestamp_serialization
  {DBState CacheState : Type} `{DBImpl : DB DBState}
  `{CacheImpl : Cache CacheState}
  (decodeMessage : string -> createMessageT.request.t * option error)
  (r : Request) (d : DBState) (c : CacheState) (t0 : time.Time)
  (t : time.Time) :
  (forall cmsgs c' dmsgs,
      Cache_ListMessages 10 c = ((cmsgs, None), c') ->
      (if 10 - len cmsgs >? 0
       then exists d', DB_ListMessages (len cmsgs) (10 - len cmsgs) d
                       = ((dmsgs, None), d')
       else dmsgs = []) ->
      flat_map createdAts
        (Written (w (exec (listMessages r) (newWorld d c t0))))
      = map (fun m => time.Time_Format (CreatedAt m) time.RFC1123)
          (cmsgs ++ dmsgs))
  /\ (forall body msg d',
        decodeMessage (Body_ r) = (body, None) ->
        DB_InsertMessage (newMessage body t0) d = ((msg, None), d') ->
        flat_map createdAts
          (Written (w (exec (createMessage decodeMessage r)
                         (newWorld d c t0))))
        = [time.Time_Format (CreatedAt msg) time.RFC1123])
  /\ (0 <= Time_Year t <= 9999 ->
      exists name offset wd year mon day hh mm ss,
        time.locabs t = (name, offset, time.unixSec t + offset)
        /\ time.Time_Format t time.RFC1123
           = rfc1123Text wd day mon (four year) hh mm ss
               (if (name =? "")%string then offsetText offset else name)
        /\ wallClock (time.unixSec t + offset) year mon day hh mm ss
        /\ (forall year' mon' day' hh' mm' ss',
              wallClock (time.unixSec t + offset) year' mon' day' hh' mm' ss' ->
              (year', mon', day', hh', mm', ss')
              = (year, mon, day, hh, mm, ss))
        /\ 0 <= year <= 9999
        /\ wd = (time.daysFromCivil year mon day + 4) mod 7
        /\ (time.loc t = time.UTC -> name = "UTC" /\ offset = 0)).
Proof.
  split; [| split].
  - intros cmsgs c' dmsgs Hc Hd.
    assert (Hout : forall msgs,
               map listMessagesT.CreatedAt (map listedMessage msgs)
               = map (fun m => time.Time_Format (CreatedAt m) time.RFC1123)
                   msgs)
      by (intros msgs; rewrite map_map; reflexivity).
    destruct (Z.gtb_spec (10 - len cmsgs) 0) as [Hgt | Hle].
    + destruct Hd as (d' & Hd).
      rewrite (listMessages_db_ok r d c t0 _ _ _ _ Hc ltac:(lia) Hd).
      cbn. rewrite app_nil_r, listMessages_out_listed. apply Hout.
    + subst dmsgs.
      rewrite (listMessages_cache_full r d c t0 _ _ Hc ltac:(lia)).
      cbn. rewrite !app_nil_r, listMessages_out_listed. apply Hout.
  - intros body msg d' Hb Hd.
    destruct (Cache_InsertMessage msg c) as [cerr c'] eqn:Hc.
    rewrite (createMessage_stored decodeMessage r d t0 c _ _ _ _ _ Hb Hd Hc).
    reflexivity.
  - intros Hyear.
    destruct (locabs_spec t) as (name & offset & Hloc & Hutc).
    unfold Time_Year in Hyear. rewrite Hloc in Hyear.
    set (abs := time.unixSec t + offset) in *.
    destruct (time.civil (abs / time.secondsPerDay)) as [[year mon] day]
      eqn:Hcivil.
    cbn [fst] in Hyear.
    pose proof (civil_spec (abs / time.secondsPerDay)) as Hspec.
    rewrite Hcivil in Hspec. destruct Hspec as (_ & _ & Hback).
    pose proof (civil_valid (abs / time.secondsPerDay)) as Hvalid.
    rewrite Hcivil in Hvalid.
    pose proof (clock_spec abs) as Hclock. cbv zeta in Hclock.
    destruct Hclock as (Hhh & Hmm & Hss & Hsum).
    assert (Hwall : wallClock abs year mon day
                      (abs mod time.secondsPerDay / 3600)
                      (abs mod time.secondsPerDay mod 3600 / 60)
                      (abs mod time.secondsPerDay mod 60)).
    { unfold wallClock. rewrite Hback.
      split; [exact Hvalid |]. do 3 (split; [assumption |]). exact Hsum. }
    exists name, offset, (time.weekday (abs / time.secondsPerDay)), year,
      mon, day, (abs mod time.secondsPerDay / 3600),
      (abs mod time.secondsPerDay mod 3600 / 60),
      (abs mod time.secondsPerDay mod 60).
    split; [exact Hloc |].
    split.
    { unfold time.Time_Format. rewrite Hloc.
      rewrite (format_RFC1123_text name offset abs year mon day Hcivil).
      rewrite appendInt_four by exact Hyear.
      unfold time.zoneText, offsetText.
      destruct (name =? "")%string; reflexivity. }
    split; [exact Hwall |].
    split.
    { intros year' mon' day' hh' mm' ss' Hwall'.
      exact (wallClock_unique _ _ _ _ _ _ _ _ _ _ _ _ _ Hwall Hwall'). }
    split; [exact Hyear |].
    split; [rewrite Hback; reflexivity | exact Hutc].
Qed.

(** The list of the cache whose one message is presented an hour east of
    UTC: its [created_at] shows that zone's clock and abbreviation. *)
Lemma timestamp_serialization_witness :
  (Cache_ListMessages 10 api_test.cet_cache
   = (([api_test.hello_cet], None), api_test.cet_cache)
   /\ DB_ListMessages 1 9 api_test.empty_db = (([], None), api_test.empty_db))
  /\ flat_map createdAts
       (Written (w (exec (listMessages api_test.get_messages)
                      (newWorld api_test.empty_db api_test.cet_cache
                         zeroTime))))
     = [time.Time_Format
          (time.Time_In (time.Date 2024 1 1 0 0 0 time.UTC)
             (time.FixedZone "CET" 3600))
          time.RFC1123].
Proof.
  split; [split; reflexivity |].
  exact (proj1
    (@timestamp_serialization api_test.testdb api_test.testcache
       api_test.testdb_DB api_test.testcache_Cache api_test.decodeMessage
       api_test.get_messages api_test.empty_db api_test.cet_cache zeroTime
       zeroTime)
    [api_test.hello_cet] api_test.cet_cache []
    eq_refl (ex_intro _ api_test.empty_db eq_refl)).
Defined.

(* ===================================================================== *)
(** ** The cases of the package's tests, run on the model *)
(* ===================================================================== *)

Example Format_test_1 :
  time.Time_Format (time.Date 2024 1 1 0 0 0 time.UTC) time.RFC1123
  = "Mon, 01 Jan 2024 00:00:00 UTC".
Proof. vm_compute. reflexivity. Qed.

Example Format_test_2 :
  time.Time_Format (time.Date 2024 1 2 0 0 0 time.UTC) time.RFC1123
  = "Tue, 02 Jan 2024 00:00:00 UTC".
Proof. vm_compute. reflexivity. Qed.

(** The reference time of Go's layouts. *)
Example Format_layout_reference :
  time.Time_Format (time.Date 2006 1 2 15 4 5 (time.FixedZone "MST" (-25200)))
    time.RFC1123
  = "Mon, 02 Jan 2006 15:04:05 MST".
Proof. vm_compute. reflexivity. Qed.

Example Format_zeroTime :
  time.Time_Format zeroTime time.RFC1123 = "Mon, 01 Jan 0001 00:00:00 UTC".
Proof. vm_compute. reflexivity. Qed.

(** A zone without abbreviation is written as its offset. *)
Example Format_unnamed_zone :
  time.Time_Format
    (time.Time_In (time.Date 2024 1 1 0 0 0 time.UTC)
       (time.FixedZone "" (-12600)))
    time.RFC1123
  = "Sun, 31 Dec 2023 20:30:00 -0330".
Proof. vm_compute. reflexivity. Qed.

(** [TestAPI_listMessages], case "Empty". *)
Example listMessages_test_Empty :
  w (exec (listMessages api_test.get_messages)
       (newWorld api_test.empty_db api_test.empty_cache zeroTime))
  = responded 200 (BMessages {| listMessagesT.Messages := [] |}).
Proof. reflexivity. Qed.

(** [TestAPI_listMessages], case "Mixed". *)
Example listMessages_test_Mixed :
  exec (listMessages api_test.get_messages)
    (newWorld api_test.mixed_db api_test.mixed_cache zeroTime)
  = {| db := api_test.mixed_db; cache := api_test.mixed_cache;
       now := zeroTime;
       calls := [CacheListMessages 10; DBListMessages 1 9];
       logs := [cacheLog 1; dbLog 1];
       w := responded 200
              (BMessages
                 {| listMessagesT.Messages :=
                      [{| listMessagesT.ID := "1";
                          listMessagesT.Text := "Hello";
                          listMessagesT.UserID := "testuser";
                          listMessagesT.CreatedAt :=
                            "Mon, 01 Jan 2024 00:00:00 UTC" |};
                       {| listMessagesT.ID := "2";
                          listMessagesT.Text := "World";
                          listMessagesT.UserID := "testuser";
                          listMessagesT.CreatedAt :=
                            "Tue, 02 Jan 2024 00:00:00 UTC" |}] |}) |}.
Proof. vm_compute. reflexivity. Qed.

(** [TestAPI_createMessage], cases "InvalidJSON", "DBError" and "OK". *)
Example createMessage_test_InvalidJSON :
  exec (createMessage api_test.decodeMessage
          {| Body_ := "not json"; PathValue_messageID := "" |})
    (newWorld api_test.inserting_db api_test.empty_cache api_test.clock)
  = {| db := api_test.inserting_db; cache := api_test.empty_cache;
       now := api_test.clock; calls := [];
       logs := [errorLog
                  "invalid character 'o' in literal null (expecting 'u')"];
       w := responded 400
              (BError {| respondErrorT.Error :=
                           "Could not decode request body" |}) |}.
Proof. reflexivity. Qed.

Example createMessage_test_DBError :
  w (exec (createMessage api_test.decodeMessage api_test.post_message)
       (newWorld api_test.failing_db api_test.empty_cache api_test.clock))
  = responded 500
      (BError {| respondErrorT.Error := "Could not insert message" |}).
Proof. reflexivity. Qed.

Example createMessage_test_OK :
  w (exec (createMessage api_test.decodeMessage api_test.post_message)
       (newWorld api_test.inserting_db api_test.empty_cache api_test.clock))
  = responded 201
      (BMessage {| createMessageT.ID := "1";
                   createMessageT.Text := "hello";
                   createMessageT.UserID := "test";
                   createMessageT.CreatedAt :=
                     "Mon, 01 Jan 2024 00:00:00 UTC" |}).
Proof. vm_compute. reflexivity. Qed.

(** [TestAPI_createReaction], case "OK": the test asks for 201 and the
    stored reaction; the handler as written answers 501. *)
Example createReaction_test_OK :
  w (exec (createReaction api_test.decodeReaction api_test.post_reaction)
       (newWorld api_test.inserting_db api_test.empty_cache api_test.clock))
  = responded 501
      (BError {| respondErrorT.Error :=
                   "could not create reaction for message with id 12345" |}).
Proof. reflexivity. Qed.

(* ===================================================================== *)
(** ** Further properties of the handlers *)
(* ===================================================================== *)

Section HandlerProperties.

Context {DBState CacheState : Type}.
Context `{DBImpl : DB DBState} `{CacheImpl : Cache CacheState}.

Variable decodeMessage : string -> createMessageT.request.t * option error.
Variable decodeReaction : string -> createReactionT.request * option error.
Variables (r : Request) (d : DBState) (c : CacheState) (t : time.Time).

(** The four ways [listMessages] can go, and the three of [createMessage]:
    each tactic leaves one goal per way, with the final world written
    out. *)
Ltac list_cases :=
  let cmsgs := fresh "cmsgs" in
  let dmsgs := fresh "dmsgs" in
  let e := fresh "e" in
  let c' := fresh "c'" in
  let d' := fresh "d'" in
  let Hc := fresh "Hc" in
  let Hd := fresh "Hd" in
  let Hlt := fresh "Hlt" in
  destruct (Cache_ListMessages 10 c) as [[cmsgs [e |]] c'] eqn:Hc;
  [ rewrite (listMessages_cache_error r d c t _ _ _ Hc)
  | destruct (Z.lt_ge_cases (len cmsgs) 10) as [Hlt | Hlt];
    [ destruct (DB_ListMessages (len cmsgs) (10 - len cmsgs) d)
        as [[dmsgs [e |]] d'] eqn:Hd;
      [ rewrite (listMessages_db_error r d c t _ _ _ _ _ Hc Hlt Hd)
      | rewrite (listMessages_db_ok r d c t _ _ _ _ Hc Hlt Hd) ]
    | rewrite (listMessages_cache_full r d c t _ _ Hc Hlt) ] ].

Ltac create_cases :=
  let body := fresh "body" in
  let msg := fresh "msg" in
  let e := fresh "e" in
  let cerr := fresh "cerr" in
  let c' := fresh "c'" in
  let d' := fresh "d'" in
  let Hb := fresh "Hb" in
  let Hc := fresh "Hc" in
  let Hd := fresh "Hd" in
  destruct (decodeMessage (Body_ r)) as [body [e |]] eqn:Hb;
  [ rewrite (createMessage_decode_error decodeMessage r d t c _ _ Hb)
  | destruct (DB_InsertMessage (newMessage body t) d)
      as [[msg [e |]] d'] eqn:Hd;
    [ rewrite (createMessage_db_error decodeMessage r d t c _ _ _ _ Hb Hd)
    | destruct (Cache_InsertMessage msg c) as [cerr c'] eqn:Hc;
      rewrite (createMessage_stored decodeMessage r d t c _ _ _ _ _ Hb Hd
                 Hc) ] ].

(** X1.  When the body of a create request does not decode, the response
    is 400 with the fixed decode message, the decoder's error goes to the
    log, and neither collaborator is called or changed. *)
Theorem create_undecodable_body body e :
  decodeMessage (Body_ r) = (body, Some e) ->
  let s' := exec (createMessage decodeMessage r) (newWorld d c t) in
  w s' = responded StatusBadRequest
           (BError {| respondErrorT.Error :=
                        "Could not decode request body" |})
  /\ calls s' = [] /\ db s' = d /\ cache s' = c
  /\ logs s' = [errorLog e].
Proof.
  intros Hb s'. subst s'.
  rewrite (createMessage_decode_error decodeMessage r d t c _ _ Hb). cbn.
  repeat (split; [reflexivity |]). reflexivity.
Qed.

Ltac allowed_answer :=
  first [ reflexivity
        | split; [allowed_answer | allowed_answer]
        | eexists; allowed_answer
        | left; allowed_answer
        | right; allowed_answer ].

Ltac last_record :=
  first [ exists []; reflexivity
        | eexists [_]; reflexivity
        | eexists [_; _]; reflexivity
        | eexists [_; _; _]; reflexivity ].

Ltac answered_once :=
  split; [reflexivity |];
  eexists; split; [reflexivity |];
  split; [solve [cbn; auto] |];
  first [ eexists; split; [reflexivity | allowed_answer]
        | split; [reflexivity | last_record] ].

(** X2.  Each handler answers exactly once, whether or not the connection
    takes the body: it sets the JSON content type as the only header and
    writes one status; on a working connection exactly one body is
    written, and when the write fails nothing is written and the failure
    is the last record of the log.  [listMessages] answers 200 with a
    list or 500 with its fixed text, [createMessage] 201 with a message,
    400 or 500 with fixed texts, and [createReaction] 400 or 501 with an
    error body. *)
Theorem handlers_answer_once (werr : option error) :
  answeredOnce werr (exec (listMessages r) (newWorldOn werr d c t))
    [StatusOK; StatusInternalServerError]
    (fun st body =>
       (st = StatusOK /\ exists res, body = BMessages res)
       \/ (st = StatusInternalServerError
           /\ body = BError {| respondErrorT.Error :=
                                 "Could not list messages" |}))
  /\ answeredOnce werr
       (exec (createMessage decodeMessage r) (newWorldOn werr d c t))
       [StatusCreated; StatusBadRequest; StatusInternalServerError]
       (fun st body =>
          (st = StatusCreated /\ exists res, body = BMessage res)
          \/ (st = StatusBadRequest
              /\ body = BError {| respondErrorT.Error :=
                                    "Could not decode request body" |})
          \/ (st = StatusInternalServerError
              /\ body = BError {| respondErrorT.Error :=
                                    "Could not insert message" |}))
  /\ answeredOnce werr
       (exec (createReaction decodeReaction r) (newWorldOn werr d c t))
       [StatusBadRequest; StatusNotImplemented]
       (fun st body =>
          exists msg, body = BError {| respondErrorT.Error := msg |}).
Proof.
  unfold answeredOnce, newWorldOn.
  split; [| split].
  - destruct werr as [we |]; run_handler;
      (destruct (Cache_ListMessages 10 c) as [[cmsgs [e |]] c'];
       cbn -[Z.gtb Z.sub len time.Time_Format]; [answered_once |]);
      (destruct (10 - len cmsgs >? 0); cbn -[Z.sub len time.Time_Format];
       [| answered_once]);
      destruct (DB_ListMessages (len cmsgs) (10 - len cmsgs) d)
        as [[dmsgs [e |]] d']; cbn -[Z.sub len time.Time_Format];
      answered_once.
  - destruct werr as [we |]; run_handler;
      (destruct (decodeMessage (Body_ r)) as [body [e |]]; cbn;
       [answered_once |]);
      (destruct (DB_InsertMessage _ d) as [[msg [e |]] d']; cbn;
       [answered_once |]);
      destruct (Cache_InsertMessage msg c) as [[e |] c']; cbn;
      answered_once.
  - destruct werr as [we |]; run_handler;
      destruct (decodeReaction (Body_ r)) as [body [e |]]; cbn;
      answered_once.
Qed.

(** X3.  [listMessages] reads the cache first, with limit 10, and makes at
    most one more call: a read of the durable store whose offset is the
    number of cached messages, between 0 and 9, and whose limit is the
    rest of the page, so that offset and limit add up to 10.  It makes no
    insert, and the store is never read first or with a limit below 1. *)
Theorem list_call_discipline :
  let s' := exec (listMessages r) (newWorld d c t) in
  calls s' = [CacheListMessages 10]
  \/ exists offset limit,
       calls s' = [CacheListMessages 10; DBListMessages offset limit]
       /\ 0 <= offset <= 9 /\ 1 <= limit <= 10 /\ offset + limit = 10.
Proof.
  intros s'. subst s'.
  assert (Hlen : forall msgs : list Message, 0 <= len msgs)
    by (intros msgs; unfold len; lia).
  list_cases; cbn [calls].
  - left. reflexivity.
  - right. exists (len cmsgs), (10 - len cmsgs).
    split; [reflexivity |]. specialize (Hlen cmsgs). lia.
  - right. exists (len cmsgs), (10 - len cmsgs).
    split; [reflexivity |]. specialize (Hlen cmsgs). lia.
  - left. reflexivity.
Qed.

(** X4.  The calls of [createMessage] are decided by the decoder and the
    durable store alone.  When the body does not decode it makes no call;
    when it decodes and the insert fails, the insert is its only call;
    when the insert succeeds, it is followed by one cache write of the
    message the store returned.  So the cache is never written before or
    without a successful insert, and neither collaborator is read. *)
Theorem create_call_discipline :
  let s' := exec (createMessage decodeMessage r) (newWorld d c t) in
  match decodeMessage (Body_ r) with
  | (_, Some _) => calls s' = []
  | (body, None) =>
      let sent := {| ID := "";
                     Text := createMessageT.request.Text body;
                     UserID := createMessageT.request.UserID body;
                     CreatedAt := t |} in
      match DB_InsertMessage sent d with
      | ((_, Some _), _) => calls s' = [DBInsertMessage sent]
      | ((msg, None), _) =>
          calls s' = [DBInsertMessage sent; CacheInsertMessage msg]
      end
  end.
Proof.
  intros s'. subst s'.
  create_cases; cbn [calls]; cbv zeta; fold (newMessage body t);
    try rewrite Hd; reflexivity.
Qed.

(** X5.  [listMessages] answers 200 exactly when the cache read succeeds
    and either fills the page or is followed by a successful read of the
    durable store; [createMessage] answers 201 exactly when the body
    decodes and the durable-store insert succeeds, whatever the cache
    write does. *)
Theorem success_conditions :
  (Status (w (exec (listMessages r) (newWorld d c t))) = Some StatusOK
   <-> exists cmsgs c',
         Cache_ListMessages 10 c = ((cmsgs, None), c')
         /\ (10 <= len cmsgs
             \/ exists dmsgs d',
                  DB_ListMessages (len cmsgs) (10 - len cmsgs) d
                  = ((dmsgs, None), d')))
  /\ (Status (w (exec (createMessage decodeMessage r) (newWorld d c t)))
      = Some StatusCreated
      <-> exists body msg d',
            decodeMessage (Body_ r) = (body, None)
            /\ DB_InsertMessage (newMessage body t) d = ((msg, None), d')).
Proof.
  split.
  - list_cases; cbn [w responded Status]; split.
    + discriminate.
    + intros (cmsgs' & c'' & Heq & _). discriminate Heq.
    + discriminate.
    + intros (cmsgs' & c'' & Heq & Hor). injection Heq as -> ->.
      destruct Hor as [Hge | (dmsgs' & d'' & Hd')]; [lia |].
      rewrite Hd in Hd'. discriminate Hd'.
    + intros _. exists cmsgs, c'. split; [reflexivity |].
      right. exists dmsgs, d'. exact Hd.
    + reflexivity.
    + intros _. exists cmsgs, c'. split; [reflexivity |]. left. exact Hlt.
    + reflexivity.
  - create_cases; cbn [w responded Status]; split.
    + discriminate.
    + intros (body' & msg' & d'' & Heq & _). discriminate Heq.
    + discriminate.
    + intros (body' & msg' & d'' & Heq & Hd'). injection Heq as ->.
      rewrite Hd in Hd'. discriminate Hd'.
    + intros _. exists body, msg, d'. split; [reflexivity | exact Hd].
    + reflexivity.
Qed.

(** X6.  An [Error] record is in the log of [listMessages] exactly when it
    answers 500, and in the log of [createMessage] exactly when it answers
    400 or 500.  [createMessage] logs [Could not cache message] with an
    error [e] exactly when the body decoded, the insert succeeded and the
    cache write of the stored message failed with [e]; the answer is then
    201. *)
Theorem errors_are_logged :
  ((exists e, In (errorLog e) (logs (exec (listMessages r) (newWorld d c t))))
   <-> Status (w (exec (listMessages r) (newWorld d c t)))
       = Some StatusInternalServerError)
  /\ ((exists e, In (errorLog e)
                   (logs (exec (createMessage decodeMessage r)
                            (newWorld d c t))))
      <-> Status (w (exec (createMessage decodeMessage r) (newWorld d c t)))
          = Some StatusBadRequest
          \/ Status (w (exec (createMessage decodeMessage r)
                          (newWorld d c t)))
             = Some StatusInternalServerError)
  /\ (forall e,
        In (cacheErrorLog e)
          (logs (exec (createMessage decodeMessage r) (newWorld d c t)))
        <-> exists body msg d' c',
              decodeMessage (Body_ r) = (body, None)
              /\ DB_InsertMessage (newMessage body t) d = ((msg, None), d')
              /\ Cache_InsertMessage msg c = (Some e, c'))
  /\ (forall e,
        In (cacheErrorLog e)
          (logs (exec (createMessage decodeMessage r) (newWorld d c t))) ->
        Status (w (exec (createMessage decodeMessage r) (newWorld d c t)))
        = Some StatusCreated).
Proof.
  assert (Hne1 : forall n e, cacheLog n <> errorLog e) by discriminate.
  assert (Hne2 : forall n e, dbLog n <> errorLog e) by discriminate.
  assert (Hne3 : forall e e', cacheErrorLog e <> errorLog e')
    by discriminate.
  assert (Hne4 : forall e e', errorLog e <> cacheErrorLog e')
    by discriminate.
  split; [| split; [| split]].
  - list_cases; cbn [w responded Status logs]; split;
      try reflexivity; try discriminate.
    + intros _. exists e. left. reflexivity.
    + intros _. exists e. right. left. reflexivity.
    + intros (e & [H | [H | []]]);
        [exact (False_ind _ (Hne1 _ _ H)) | exact (False_ind _ (Hne2 _ _ H))].
    + intros (e & [H | []]). exact (False_ind _ (Hne1 _ _ H)).
  - create_cases; cbn [w responded Status logs]; split.
    + intros _. left. reflexivity.
    + intros _. exists e. left. reflexivity.
    + intros _. right. reflexivity.
    + intros _. exists e. left. reflexivity.
    + intros (e & H). destruct cerr as [e' |]; cbn in H.
      * destruct H as [H | []]. exact (False_ind _ (Hne3 _ _ H)).
      * destruct H.
    + intros [H | H]; discriminate H.
  - intros e0. create_cases; cbn [logs]; split.
    + intros [H | []]. exact (False_ind _ (Hne4 _ _ H)).
    + intros (body' & msg' & d'' & c'' & Heq & _). discriminate Heq.
    + intros [H | []]. exact (False_ind _ (Hne4 _ _ H)).
    + intros (body' & msg' & d'' & c'' & Heq & Hd' & _).
      injection Heq as ->. rewrite Hd in Hd'. discriminate Hd'.
    + intros H. destruct cerr as [e' |]; cbn in H; [| destruct H].
      destruct H as [H | []]. injection H as ->.
      exists body, msg, d', c'. split; [reflexivity |].
      split; [exact Hd | exact Hc].
    + intros (body' & msg' & d'' & c'' & Heq & Hd' & Hc').
      injection Heq as ->. rewrite Hd in Hd'. injection Hd' as -> ->.
      rewrite Hc in Hc'. injection Hc' as -> ->.
      left. reflexivity.
  - intros e0. create_cases; cbn [w responded Status logs].
    + intros [H | []]. exact (False_ind _ (Hne4 _ _ H)).
    + intros [H | []]. exact (False_ind _ (Hne4 _ _ H)).
    + intros _. reflexivity.
Qed.

(** X8.  [ServeHTTP] logs the request, with its method and path, before
    the routed handler does anything: for each of the three handlers the
    log is that record followed by the handler's own records, and the
    calls, the response and the collaborators are the handler's. *)
Theorem serve_logs_request_first (hr : HTTPRequest) :
  served hr (exec (listMessages (request hr)) (newWorld d c t))
    (exec (ServeHTTP listMessages hr) (newWorld d c t))
  /\ served hr
       (exec (createMessage decodeMessage (request hr)) (newWorld d c t))
       (exec (ServeHTTP (createMessage decodeMessage) hr) (newWorld d c t))
  /\ served hr
       (exec (createReaction decodeReaction (request hr)) (newWorld d c t))
       (exec (ServeHTTP (createReaction decodeReaction) hr)
          (newWorld d c t)).
Proof.
  unfold served, ServeHTTP.
  split; [| split].
  - run_handler.
    destruct (Cache_ListMessages 10 c) as [[cmsgs [e |]] c'];
      cbn -[Z.gtb Z.sub len time.Time_Format].
    { repeat (split; [reflexivity |]). reflexivity. }
    destruct (10 - len cmsgs >? 0); cbn -[Z.sub len time.Time_Format].
    + destruct (DB_ListMessages (len cmsgs) (10 - len cmsgs) d)
        as [[dmsgs [e |]] d']; cbn -[Z.sub len time.Time_Format];
        repeat (split; [reflexivity |]); reflexivity.
    + repeat (split; [reflexivity |]). reflexivity.
  - run_handler.
    destruct (decodeMessage (Body_ (request hr))) as [body [e |]]; cbn.
    { repeat (split; [reflexivity |]). reflexivity. }
    destruct (DB_InsertMessage _ d) as [[msg [e |]] d']; cbn.
    { repeat (split; [reflexivity |]). reflexivity. }
    destruct (Cache_InsertMessage msg c) as [[e |] c']; cbn;
      repeat (split; [reflexivity |]); reflexivity.
  - run_handler.
    destruct (decodeReaction (Body_ (request hr))) as [body [e |]]; cbn;
      repeat (split; [reflexivity |]); reflexivity.
Qed.

End HandlerProperties.

(* ===================================================================== *)
(** ** The handlers over the PostgreSQL store *)
(* ===================================================================== *)

Section OverPostgres.

Context {CacheState : Type} `{CacheImpl : Cache CacheState}.

Variable Conn : Type.
Variable bun_Insert
  : postgres.message -> Conn -> (postgres.message * option error) * Conn.
Variable bun_Select
  : Z -> Z -> Conn -> (list postgres.message * option error) * Conn.

Variable decodeMessage : string -> createMessageT.request.t * option error.
Variables (r : Request) (conn : Conn) (c : CacheState).

Local Notation "'pg'" :=
  (postgres.Postgres_DB Conn bun_Insert bun_Select).

(** X9.  With the PostgreSQL store behind it, [createMessage] does the
    same at every reading of the clock: the response, the log, the
    database and the cache end up the same.  The time the handler puts on
    the message it hands over reaches neither the database nor the
    caller. *)
Theorem create_over_postgres_ignores_clock (t1 t2 : time.Time) :
  let s1 := exec (@createMessage Conn CacheState pg CacheImpl decodeMessage r)
              (newWorld conn c t1) in
  let s2 := exec (@createMessage Conn CacheState pg CacheImpl decodeMessage r)
              (newWorld conn c t2) in
  w s1 = w s2 /\ logs s1 = logs s2 /\ db s1 = db s2 /\ cache s1 = cache s2
  /\ filter isCacheCall (calls s1) = filter isCacheCall (calls s2).
Proof.
  intros s1 s2. subst s1 s2.
  destruct (decodeMessage (Body_ r)) as [body [e |]] eqn:Hb.
  { rewrite (createMessage_decode_error decodeMessage r conn t1 c _ _ Hb).
    rewrite (createMessage_decode_error decodeMessage r conn t2 c _ _ Hb).
    repeat (split; [reflexivity |]). reflexivity. }
  assert (Hins : forall t,
             @DB_InsertMessage Conn pg (newMessage body t) conn
             = postgres.InsertMessage Conn bun_Insert (newMessage body zeroTime)
                 conn) by reflexivity.
  destruct (postgres.InsertMessage Conn bun_Insert (newMessage body zeroTime)
              conn) as [[msg [e |]] conn'] eqn:Hd.
  { rewrite (createMessage_db_error decodeMessage r conn t1 c _ _ _ _ Hb
               (Hins t1)).
    rewrite (createMessage_db_error decodeMessage r conn t2 c _ _ _ _ Hb
               (Hins t2)).
    repeat (split; [reflexivity |]). reflexivity. }
  destruct (Cache_InsertMessage msg c) as [cerr c'] eqn:Hc.
  rewrite (createMessage_stored decodeMessage r conn t1 c _ _ _ _ _ Hb
             (Hins t1) Hc).
  rewrite (createMessage_stored decodeMessage r conn t2 c _ _ _ _ _ Hb
             (Hins t2) Hc).
  repeat (split; [reflexivity |]). reflexivity.
Qed.

(** X10.  With the PostgreSQL store behind it and a decoded body,
    [createMessage] hands the database a row with the text and author of
    the request, no identity and the zero time.  If the insert fails with
    [e], the log holds [insert: e], the response is 500 with the fixed
    text and the cache is not called; if it succeeds, the 201 response and
    the message written to the cache carry the fields of the row as the
    database completed it. *)
Theorem create_over_postgres (t : time.Time) body row' err conn' :
  decodeMessage (Body_ r) = (body, None) ->
  bun_Insert (insertedRow body) conn = ((row', err), conn') ->
  let s' := exec (@createMessage Conn CacheState pg CacheImpl decodeMessage r)
              (newWorld conn c t) in
  db s' = conn'
  /\ match err with
     | Some e =>
         w s' = responded StatusInternalServerError
                  (BError {| respondErrorT.Error :=
                               "Could not insert message" |})
         /\ logs s' = [errorLog ("insert: " ++ e)]
         /\ filter isCacheCall (calls s') = []
         /\ cache s' = c
     | None =>
         w s' = responded StatusCreated
                  (BMessage
                     {| createMessageT.ID := postgres.ID row';
                        createMessageT.Text := postgres.MessageText row';
                        createMessageT.UserID := postgres.UserID row';
                        createMessageT.CreatedAt :=
                          time.Time_Format (postgres.CreatedAt row')
                            time.RFC1123 |})
         /\ filter isCacheCall (calls s')
            = [CacheInsertMessage (postgres.APIMessage row')]
     end.
Proof.
  intros Hb Hrow s'. subst s'.
  destruct err as [e |].
  - assert (Hd : @DB_InsertMessage Conn pg (newMessage body t) conn
                 = (({| ID := ""; Text := ""; UserID := "";
                        CreatedAt := zeroTime |},
                     Some ("insert: " ++ e)), conn')).
    { cbn. unfold postgres.InsertMessage. cbn. fold (insertedRow body).
      rewrite Hrow. reflexivity. }
    rewrite (createMessage_db_error decodeMessage r conn t c _ _ _ _ Hb Hd).
    cbn. repeat (split; [reflexivity |]). reflexivity.
  - assert (Hd : @DB_InsertMessage Conn pg (newMessage body t) conn
                 = ((postgres.APIMessage row', None), conn')).
    { cbn. unfold postgres.InsertMessage. cbn. fold (insertedRow body).
      rewrite Hrow. reflexivity. }
    destruct (Cache_InsertMessage (postgres.APIMessage row') c)
      as [cerr c'] eqn:Hc.
    rewrite (createMessage_stored decodeMessage r conn t c _ _ _ _ _ Hb Hd
               Hc).
    cbn. repeat (split; [reflexivity |]). reflexivity.
Qed.

(** X11.  With the PostgreSQL store behind it, when the cache gives fewer
    than 10 messages [listMessages] selects with the number of cached
    messages as offset and the rest of the page as limit.  If the select
    fails with [e], the log holds [scan: e] and the response is 500 with
    the fixed text; if it succeeds, the 200 response holds the entries of
    the cached messages followed by one entry per selected row, in the
    order of the select, each with the identity, text, author and
    formatted timestamp of its row. *)
Theorem list_over_postgres (t : time.Time) cmsgs c' rows err conn' :
  Cache_ListMessages 10 c = ((cmsgs, None), c') ->
  len cmsgs < 10 ->
  bun_Select (len cmsgs) (10 - len cmsgs) conn = ((rows, err), conn') ->
  let s' := exec (@listMessages Conn CacheState pg CacheImpl r)
              (newWorld conn c t) in
  db s' = conn'
  /\ match err with
     | Some e =>
         w s' = responded StatusInternalServerError
                  (BError {| respondErrorT.Error :=
                               "Could not list messages" |})
         /\ logs s' = [cacheLog (len cmsgs); errorLog ("scan: " ++ e)]
     | None =>
         w s' = responded StatusOK
                  (BMessages
                     {| listMessagesT.Messages :=
                          (map listedMessage cmsgs
                           ++ map listedRow rows)%list |})
         /\ logs s' = [cacheLog (len cmsgs); dbLog (len rows)]
     end.
Proof.
  intros Hc Hlt Hsel s'. subst s'.
  destruct err as [e |].
  - assert (Hd : @DB_ListMessages Conn pg (len cmsgs) (10 - len cmsgs) conn
                 = (([], Some ("scan: " ++ e)), conn')).
    { cbn -[Z.sub len]. unfold postgres.ListMessages. rewrite Hsel.
      reflexivity. }
    rewrite (listMessages_db_error r conn c t _ _ _ _ _ Hc Hlt Hd).
    cbn. repeat (split; [reflexivity |]). reflexivity.
  - assert (Hd : @DB_ListMessages Conn pg (len cmsgs) (10 - len cmsgs) conn
                 = ((map postgres.APIMessage rows, None), conn')).
    { cbn -[Z.sub len]. unfold postgres.ListMessages. rewrite Hsel.
      reflexivity. }
    rewrite (listMessages_db_ok r conn c t _ _ _ _ Hc Hlt Hd).
    cbn -[Z.sub len]. rewrite listMessages_out_listed, map_app, map_map.
    unfold len. rewrite length_map.
    repeat (split; [reflexivity |]). reflexivity.
Qed.

End OverPostgres.

(** The case "InvalidJSON" of [TestAPI_createMessage]. *)
Lemma create_undecodable_body_witness :
  api_test.decodeMessage "not json"
  = ({| createMessageT.request.Text := "";
        createMessageT.request.UserID := "" |},
     Some "invalid character 'o' in literal null (expecting 'u')")
  /\ calls (exec (createMessage api_test.decodeMessage
                    {| Body_ := "not json"; PathValue_messageID := "" |})
              (newWorld api_test.inserting_db api_test.empty_cache
                 api_test.clock))
     = [].
Proof.
  split; [reflexivity |].
  apply (@create_undecodable_body _ _ api_test.testdb_DB
           api_test.testcache_Cache api_test.decodeMessage
           {| Body_ := "not json"; PathValue_messageID := "" |}
           api_test.inserting_db api_test.empty_cache api_test.clock
           _ _ eq_refl).
Defined.

(** A create request over a database that completes the row with id 7. *)
Lemma create_over_postgres_witness :
  (api_test.decodeMessage (Body_ api_test.post_message)
   = (api_test.hello_request, None)
   /\ stub_Insert
        {| postgres.ID := ""; postgres.MessageText := "hello";
           postgres.UserID := "test"; postgres.CreatedAt := zeroTime |} tt
      = (({| postgres.ID := "7"; postgres.MessageText := "hello";
             postgres.UserID := "test";
             postgres.CreatedAt := time.Date 2024 1 3 0 0 0 time.UTC |},
          None), tt))
  /\ w (exec (@createMessage unit api_test.testcache
                (postgres.Postgres_DB unit stub_Insert stub_Select)
                api_test.testcache_Cache api_test.decodeMessage
                api_test.post_message)
          (newWorld tt api_test.empty_cache api_test.clock))
     = responded StatusCreated
         (BMessage
            {| createMessageT.ID := "7";
               createMessageT.Text := "hello";
               createMessageT.UserID := "test";
               createMessageT.CreatedAt :=
                 time.Time_Format (time.Date 2024 1 3 0 0 0 time.UTC)
                   time.RFC1123 |}).
Proof.
  split; [split; reflexivity |].
  exact (proj1 (proj2
    (@create_over_postgres api_test.testcache api_test.testcache_Cache unit
       stub_Insert stub_Select api_test.decodeMessage api_test.post_message
       tt api_test.empty_cache api_test.clock api_test.hello_request
       _ None tt eq_refl eq_refl))).
Defined.

(** A list request with one cached message over a database whose select
    answers one row. *)
Lemma list_over_postgres_witness :
  (Cache_ListMessages 10 api_test.mixed_cache
   = (([api_test.hello], None), api_test.mixed_cache)
   /\ len [api_test.hello] < 10
   /\ stub_Select 1 9 tt = (([stub_row], None), tt))
  /\ w (exec (@listMessages unit api_test.testcache
                (postgres.Postgres_DB unit stub_Insert stub_Select)
                api_test.testcache_Cache api_test.get_messages)
          (newWorld tt api_test.mixed_cache zeroTime))
     = responded StatusOK
         (BMessages
            {| listMessagesT.Messages :=
                 [listedMessage api_test.hello; listedRow stub_row] |}).
Proof.
  split; [repeat split |].
  exact (proj1 (proj2
    (@list_over_postgres api_test.testcache api_test.testcache_Cache unit
       stub_Insert stub_Select api_test.get_messages tt
       api_test.mixed_cache zeroTime [api_test.hello] api_test.mixed_cache
       [stub_row] None tt eq_refl eq_refl eq_refl))).
Defined.

(* ===================================================================== *)
(** ** The width of a serialized timestamp *)
(* ===================================================================== *)

Lemma length_append (s1 s2 : string) :
  String.length (s1 ++ s2) = (String.length s1 + String.length s2)%nat.
Proof.
  induction s1 as [| a s1 IH]; cbn; [reflexivity | rewrite IH; reflexivity].
Qed.

Lemma shortDayName_length wd :
  0 <= wd < 7 -> String.length (nth (Z.to_nat wd) shortDayNames "") = 3%nat.
Proof.
  intros H.
  assert (Hwd : wd = 0 \/ wd = 1 \/ wd = 2 \/ wd = 3 \/ wd = 4 \/ wd = 5
                \/ wd = 6) by lia.
  repeat (destruct Hwd as [-> | Hwd]; [reflexivity |]).
  subst wd. reflexivity.
Qed.

Lemma shortMonthName_length m :
  1 <= m <= 12 ->
  String.length (nth (Z.to_nat (m - 1)) shortMonthNames "") = 3%nat.
Proof.
  intros H.
  assert (Hm : m = 1 \/ m = 2 \/ m = 3 \/ m = 4 \/ m = 5 \/ m = 6 \/ m = 7
               \/ m = 8 \/ m = 9 \/ m = 10 \/ m = 11 \/ m = 12) by lia.
  repeat (destruct Hm as [-> | Hm]; [reflexivity |]).
  subst m. reflexivity.
Qed.

(** X12.  In a list response, the [created_at] of every message whose
    timestamp is located in UTC and falls in the years 0 to 9999 has
    exactly 29 characters, the width of
    [Mon, 02 Jan 2006 15:04:05 UTC]. *)
Theorem created_at_width (msgs : list Message) :
  Forall (fun m => time.loc (CreatedAt m) = time.UTC
                   /\ 0 <= Time_Year (CreatedAt m) <= 9999) msgs ->
  Forall (fun s => String.length s = 29%nat)
    (map listMessagesT.CreatedAt (listMessages_out msgs)).
Proof.
  intros Hall. unfold listMessages_out. rewrite map_map. cbn.
  apply Forall_map. revert Hall. apply Forall_impl.
  intros m (Hloc & Hyear).
  unfold Time_Year in Hyear. unfold time.Time_Format.
  unfold time.locabs in *. rewrite Hloc in *.
  set (abs := time.unixSec (CreatedAt m)) in *.
  destruct (time.civil (abs / time.secondsPerDay)) as [[year mon] day]
    eqn:Hcivil.
  cbn [fst] in Hyear.
  rewrite (format_RFC1123_text "UTC" 0 abs year mon day Hcivil).
  pose proof (civil_spec (abs / time.secondsPerDay)) as Hspec.
  rewrite Hcivil in Hspec. destruct Hspec as (Hmon & _).
  rewrite appendInt_four by exact Hyear.
  unfold rfc1123Text. rewrite !length_append.
  rewrite shortDayName_length
    by (unfold time.weekday; apply Z.mod_pos_bound; lia).
  rewrite shortMonthName_length by exact Hmon.
  reflexivity.
Qed.

Lemma created_at_width_witness :
  Forall (fun m => time.loc (CreatedAt m) = time.UTC
                   /\ 0 <= Time_Year (CreatedAt m) <= 9999)
    [api_test.hello; api_test.world]
  /\ Forall (fun s => String.length s = 29%nat)
       (map listMessagesT.CreatedAt
          (listMessages_out [api_test.hello; api_test.world])).
Proof.
  assert (H : Forall (fun m => time.loc (CreatedAt m) = time.UTC
                               /\ 0 <= Time_Year (CreatedAt m) <= 9999)
                [api_test.hello; api_test.world]).
  { repeat constructor; vm_compute; discriminate. }
  split; [exact H |].
  exact (created_at_width [api_test.hello; api_test.world] H).
Defined.
